(** * VeryGoodMail: the e-mail classification services

    A shallow embedding of the decision logic of the two Python services

    - [Email-System-Server/phobert-service/main.py]: the rule-based keyword
      scorer [RuleBasedClassifier.classify], the [/classify] endpoint and the
      [/batch-classify] endpoint;
    - [PhoBERT-Service/app/classifier.py]: [PhoBERTClassifier.classify] with
      its label tables [CATEGORIES] and [SENTIMENTS].

    Python values are modelled as follows.  A [str] is the list of its code
    points; [int] is [Z]; [float] is the kernel's binary64 [float], so the
    confidences computed here are bit for bit those of CPython; a [dict] whose
    iteration order matters is an association list in insertion order; code
    that may raise returns an [outcome].  Neural inference (tokenizer, torch
    models) and the Unicode case tables of the runtime are not part of the
    repository and are taken as parameters. *)

From Stdlib Require Import List String Ascii NArith ZArith Lia Bool.
From Stdlib Require Import PrimFloat Uint63.
Import ListNotations.

Set Warnings "-inexact-float".
Set Implicit Arguments.

(* ================================================================== *)
(** * The Python runtime                                                *)
(* ================================================================== *)

Module Py.

(** ** Strings *)

(** A Python [str]: a sequence of Unicode code points. *)
Definition str := list N.

(** UTF-8 decoding, used to write the literals of the source as they appear
    in the file.  [pending] continuation bytes are still expected for the
    code point accumulated in [acc]. *)
Fixpoint utf8_decode (pending : nat) (acc : N) (bytes : list N) : str :=
  match bytes with
  | [] => []
  | b :: rest =>
      match pending with
      | O =>
          if (b <? 128)%N then b :: utf8_decode 0 0%N rest
          else if (b <? 224)%N then utf8_decode 1 (N.land b 31) rest
          else if (b <? 240)%N then utf8_decode 2 (N.land b 15) rest
          else utf8_decode 3 (N.land b 7) rest
      | S O => (acc * 64 + N.land b 63)%N :: utf8_decode 0 0%N rest
      | S p => utf8_decode p (acc * 64 + N.land b 63)%N rest
      end
  end.

Definition utf8 (s : string) : str :=
  utf8_decode 0 0%N (map N_of_ascii (list_ascii_of_string s)).

(** [str.isspace] on one code point (CPython's [_PyUnicode_IsWhitespace]). *)
Definition isspace (c : N) : bool :=
  ((9 <=? c) && (c <=? 13) || (28 <=? c) && (c <=? 32)
   || (c =? 133) || (c =? 160) || (c =? 5760)
   || (8192 <=? c) && (c <=? 8202)
   || (c =? 8232) || (c =? 8233) || (c =? 8239) || (c =? 8287)
   || (c =? 12288))%N.

Fixpoint lstrip (s : str) : str :=
  match s with
  | [] => []
  | c :: s' => if isspace c then lstrip s' else s
  end.

Definition rstrip (s : str) : str := rev (lstrip (rev s)).

(** [s.strip()] *)
Definition strip (s : str) : str := rstrip (lstrip s).

Fixpoint startswith (p s : str) : bool :=
  match p, s with
  | [], _ => true
  | _ :: _, [] => false
  | a :: p', b :: s' => (a =? b)%N && startswith p' s'
  end.

(** [p in s] for two strings. *)
Fixpoint str_in (p s : str) : bool :=
  startswith p s ||
  match s with
  | [] => false
  | _ :: s' => str_in p s'
  end.

(** [str.lower].  CPython builds the result position by position: the code
    point at index [i] is replaced by its full lower-case mapping, which is
    looked up in the Unicode database and, for capital sigma, depends on the
    neighbouring characters.  The database is the parameter [lower_at s i]. *)
Section Lower.
Variable lower_at : str -> nat -> str.

Definition lower (s : str) : str :=
  flat_map (lower_at s) (seq 0 (List.length s)).
End Lower.

(** The lower-case mapping restricted to ASCII: identity elsewhere.  It agrees
    with the runtime's on every string without cased non-ASCII capitals. *)
Definition ascii_lower_at (s : str) (i : nat) : str :=
  match nth_error s i with
  | Some c => [if (65 <=? c) && (c <=? 90) then c + 32 else c]%N
  | None => []
  end.

(** [bool(s)] for a string: non-empty. *)
Definition truthy (s : str) : bool :=
  match s with [] => false | _ :: _ => true end.

(** ** Exceptions *)

Inductive exn : Type :=
| KeyError (key : str)
| ValueError (msg : str)
| HTTPException (status_code : Z) (detail : str)
| Exception (msg : str).

(** [str(e)] *)
Definition exn_str (e : exn) : str :=
  match e with
  | KeyError k => utf8 "'" ++ k ++ utf8 "'"
  | ValueError m => m
  | HTTPException _ d => d
  | Exception m => m
  end.

Inductive outcome (A : Type) : Type :=
| Returns (a : A)
| Raises (e : exn).
Arguments Raises {A} e.

Definition bind {A B : Type} (m : outcome A) (k : A -> outcome B) : outcome B :=
  match m with
  | Returns a => k a
  | Raises e => Raises e
  end.

Declare Scope py_scope.
Delimit Scope py_scope with py.
Notation "x <- m ;; k" := (bind m (fun x => k))
  (at level 61, m at next level, right associativity) : py_scope.

(** ** Dictionaries in insertion order *)

Definition dict (V : Type) := list (str * V).

Definition str_eqb (a b : str) : bool :=
  if list_eq_dec N.eq_dec a b then true else false.

Fixpoint lookup {V : Type} (d : dict V) (k : str) : option V :=
  match d with
  | [] => None
  | (k', v) :: d' => if str_eqb k' k then Some v else lookup d' k
  end.

(** [d.get(k, default)] *)
Definition get {V : Type} (d : dict V) (k : str) (default : V) : V :=
  match lookup d k with Some v => v | None => default end.

(** [d[k]] *)
Definition item {V : Type} (d : dict V) (k : str) : outcome V :=
  match lookup d k with Some v => Returns v | None => Raises (KeyError k) end.

(** [d[k] = v]: an existing key keeps its position. *)
Fixpoint setitem {V : Type} (d : dict V) (k : str) (v : V) : dict V :=
  match d with
  | [] => [(k, v)]
  | (k', v') :: d' =>
      if str_eqb k' k then (k', v) :: d' else (k', v') :: setitem d' k v
  end.

Definition keys {V : Type} (d : dict V) : list str := map fst d.
Definition values {V : Type} (d : dict V) : list V := map snd d.

(** ** Numbers *)

(** [sum(1 for x in xs if p x)] *)
Definition sum_ones {A : Type} (p : A -> bool) (xs : list A) : Z :=
  fold_left (fun acc x => if p x then acc + 1 else acc)%Z xs 0%Z.

(** [max(xs)] on integers: the first largest element, [ValueError] on an
    empty sequence. *)
Definition max_int (xs : list Z) : outcome Z :=
  match xs with
  | [] => Raises (ValueError (utf8 "max() arg is an empty sequence"))
  | x :: xs' => Returns (fold_left (fun m y => if (m <? y)%Z then y else m) xs' x)
  end.

(** [max(xs, key=f)]: an element replaces the current best only when its key
    is strictly greater, so the first maximal element wins. *)
Definition max_key {A : Type} (f : A -> Z) (xs : list A) : outcome A :=
  match xs with
  | [] => Raises (ValueError (utf8 "max() arg is an empty sequence"))
  | x :: xs' =>
      Returns (fold_left (fun best y => if (f best <? f y)%Z then y else best) xs' x)
  end.

(** Conversion of an [int] operand in mixed arithmetic (exact below 2^53). *)
Definition float_of_int (z : Z) : float := of_uint63 (Uint63.of_Z z).

(** [min(a, b)] and [max(a, b)] on floats: the second argument is returned
    only when it compares strictly better. *)
Definition fmin (a b : float) : float := if (b <? a)%float then b else a.
Definition fmax (a b : float) : float := if (a <? b)%float then b else a.

End Py.

Import Py.
Local Open Scope py_scope.

(* ================================================================== *)
(** * Email-System-Server/phobert-service/main.py                       *)
(* ================================================================== *)

(** The dictionary returned by both classifiers of this service and sent back
    as [ClassifyResponse]. *)
Record ClassifyResult : Type := {
  is_spam : bool;
  spam_confidence : float;
  category : str;
  category_confidence : float;
  sentiment : str;
  sentiment_confidence : float;
  processing_time_ms : float
}.

(** ** The rule-based fallback classifier *)

Module RuleBasedClassifier.

Definition SPAM_KEYWORDS : dict (list str) := Eval vm_compute in
  [ (utf8 "vi", map utf8
      ["trúng thưởng"; "giảm cân"; "kiếm tiền"; "miễn phí";
       "khuyến mãi đặc biệt"; "click ngay"; "nhấn vào đây"; "ưu đãi sốc";
       "giới hạn"; "chỉ hôm nay"]%string);
    (utf8 "en", map utf8
      ["winner"; "lottery"; "free money"; "click here"; "limited time";
       "act now"; "congratulations"; "selected"; "prize"; "urgent"]%string) ].

Definition NEGATIVE_KEYWORDS : dict (list str) := Eval vm_compute in
  [ (utf8 "vi", map utf8
      ["thất vọng"; "tệ"; "kém"; "tồi"; "phàn nàn"; "khiếu nại"; "hủy";
       "từ chối"]%string);
    (utf8 "en", map utf8
      ["disappointed"; "terrible"; "worst"; "complaint"; "cancel"; "refuse";
       "angry"; "frustrated"]%string) ].

Definition POSITIVE_KEYWORDS : dict (list str) := Eval vm_compute in
  [ (utf8 "vi", map utf8
      ["cảm ơn"; "tuyệt vời"; "xuất sắc"; "hài lòng"; "tốt"; "yêu thích"]%string);
    (utf8 "en", map utf8
      ["thank"; "excellent"; "great"; "wonderful"; "appreciate"; "love";
       "amazing"]%string) ].

Definition CATEGORY_PATTERNS : dict (list str) := Eval vm_compute in
  [ (utf8 "important", map utf8
      ["urgent"; "important"; "action required"; "khẩn cấp"; "quan trọng";
       "cần xử lý"]%string);
    (utf8 "social", map utf8
      ["friend"; "follow"; "like"; "comment"; "bạn bè"; "theo dõi";
       "bình luận"]%string);
    (utf8 "promotions", map utf8
      ["sale"; "discount"; "offer"; "deal"; "giảm giá"; "khuyến mãi";
       "ưu đãi"]%string);
    (utf8 "updates", map utf8
      ["shipped"; "delivered"; "update"; "notification"; "giao hàng";
       "cập nhật"; "thông báo"]%string) ].

Section Classify.
Variable lower_at : str -> nat -> str.

(** [sum(1 for kw in keywords if kw in text_lower)] *)
Definition hits (keywords : list str) (text_lower : str) : Z :=
  sum_ones (fun kw => str_in kw text_lower) keywords.

(** [sum(1 for kw in TABLE.get(language, []) + TABLE["en"] if kw in text_lower)],
    the expression evaluated for the spam, the positive and the negative
    table. *)
Definition keyword_score (table : dict (list str)) (language text_lower : str)
  : outcome Z :=
  en <- item table (utf8 "en") ;;
  Returns (hits (get table language [] ++ en) text_lower).

(** The [category_scores] dictionary filled by the loop over
    [CATEGORY_PATTERNS.items()]. *)
Definition category_scores_of (text_lower : str) : dict Z :=
  fold_left
    (fun scores (entry : str * list str) =>
       let (cat, keywords) := entry in
       setitem scores cat (hits keywords text_lower))
    CATEGORY_PATTERNS [].

(** The [if max(category_scores.values()) > 0: ... else: ...] block: the
    category and its confidence.  [category_scores.get] is the key
    function; on the keys of the dictionary itself it never yields [None]. *)
Definition choose_category (category_scores : dict Z) : outcome (str * float) :=
  top <- max_int (values category_scores) ;;
  if (0 <? top)%Z then
    category <- max_key (fun k => get category_scores k 0%Z)
                        (keys category_scores) ;;
    score <- item category_scores category ;;
    Returns (category, fmin (0.5 + float_of_int score * 0.15) 0.85)
  else Returns (utf8 "primary", 0.6%float).

Definition classify (text language : str) : outcome ClassifyResult :=
  let text_lower := lower lower_at text in
  (* Spam detection *)
  spam_score <- keyword_score SPAM_KEYWORDS language text_lower ;;
  let is_spam := (2 <=? spam_score)%Z in
  let spam_conf :=
    if is_spam then fmin (0.5 + float_of_int spam_score * 0.1) 0.95
    else fmax (0.5 - float_of_int spam_score * 0.1) 0.1 in
  (* Sentiment *)
  pos_score <- keyword_score POSITIVE_KEYWORDS language text_lower ;;
  neg_score <- keyword_score NEGATIVE_KEYWORDS language text_lower ;;
  let (sentiment, sent_conf) :=
    if (neg_score <? pos_score)%Z then
      (utf8 "positive", fmin (0.5 + float_of_int pos_score * 0.1) 0.9)
    else if (pos_score <? neg_score)%Z then
      (utf8 "negative", fmin (0.5 + float_of_int neg_score * 0.1) 0.9)
    else (utf8 "neutral", 0.6%float) in
  (* Category *)
  let category_scores := category_scores_of text_lower in
  cat <- choose_category category_scores ;;
  Returns {| is_spam := is_spam;
             spam_confidence := spam_conf;
             category := fst cat;
             category_confidence := snd cat;
             sentiment := sentiment;
             sentiment_confidence := sent_conf;
             processing_time_ms := 1.0 |}.
End Classify.

End RuleBasedClassifier.

(** ** The endpoints *)

Module Server.

(** [ClassifyRequest] *)
Record ClassifyRequest : Type := {
  subject : str;
  body : str;
  language : str
}.

(** The model-backed [PhoBERTClassifier] of this service.  Its three
    [predict_*] methods run the tokenizer and a torch model on the text; what
    they compute is outside the repository, so each is a field: the tuple the
    method returns, or the message of the exception that tokenization or
    inference raised. *)
Record PhoBERTClassifier : Type := {
  models_loaded : bool;
  predict_spam : str -> (bool * float) + str;
  predict_sentiment : str -> (str * float * dict float) + str;
  predict_category : str -> (str * float) + str
}.

(** The outcome of a [predict_*] call. *)
Definition predicted {A : Type} (answer : A + str) : outcome A :=
  match answer with
  | inl a => Returns a
  | inr msg => Raises (Exception msg)
  end.

(** Invocations of a classification backend, in the order they are made. *)
Inductive call : Type :=
| ModelCall (subject body : str)
| RuleCall (text language : str).

(** One entry of the [results] list of [/batch-classify]:
    [{"success": True, **result}] or [{"success": False, "error": str(e)}]. *)
Inductive BatchItem : Type :=
| Succeeded (result : ClassifyResult)
| Failed (error : str).

Definition success (b : BatchItem) : bool :=
  match b with Succeeded _ => true | Failed _ => false end.

Record BatchResponse : Type := {
  results : list BatchItem;
  total : Z
}.

Section Endpoints.
Variable lower_at : str -> nat -> str.
(** [round(x, ndigits)] *)
Variable round : float -> Z -> float.
(** The module-level [classifier]: [None] unless the models were loaded at
    start-up. *)
Variable classifier : option PhoBERTClassifier.

(** [PhoBERTClassifier.classify_email].  [times] holds the two readings of
    [time.time()] that the call observes, at its start and after the three
    predictions. *)
Definition classify_email_model (c : PhoBERTClassifier) (times : float * float)
           (subject body : str) : outcome ClassifyResult :=
  let start_time := fst times in
  (* Combine subject and body for analysis *)
  let full_text := strip (subject ++ utf8 " " ++ body) in
  (* Run predictions *)
  spam <- predicted (predict_spam c full_text) ;;
  senti <- predicted (predict_sentiment c full_text) ;;
  cat <- predicted (predict_category c full_text) ;;
  let processing_time := ((snd times - start_time) * 1000)%float in
  Returns {| is_spam := fst spam;
             spam_confidence := round (snd spam) 4;
             category := fst cat;
             category_confidence := round (snd cat) 4;
             sentiment := fst (fst senti);
             sentiment_confidence := round (snd (fst senti)) 4;
             processing_time_ms := round processing_time 2 |}.

(** [f"{subject} {body}".strip()] *)
Definition full_text_of (request : ClassifyRequest) : str :=
  strip (subject request ++ utf8 " " ++ body request).

(** [if classifier and classifier.models_loaded: ... else: ...], with the
    backend call it makes; [times] are the clock readings of that call. *)
Definition run_backend (times : float * float) (request : ClassifyRequest)
           (full_text : str) : list call * outcome ClassifyResult :=
  match classifier with
  | Some c =>
      if models_loaded c then
        ([ModelCall (subject request) (body request)],
         classify_email_model c times (subject request) (body request))
      else
        ([RuleCall full_text (language request)],
         RuleBasedClassifier.classify lower_at full_text (language request))
  | None =>
      ([RuleCall full_text (language request)],
       RuleBasedClassifier.classify lower_at full_text (language request))
  end.

(** [POST /classify] *)
Definition classify_email (times : float * float) (request : ClassifyRequest)
  : list call * outcome ClassifyResult :=
  let full_text := full_text_of request in
  let (calls, result) :=
    if negb (truthy full_text) then
      ([], Raises (HTTPException 400 (utf8 "Email content cannot be empty")))
    else run_backend times request full_text in
  (calls,
   match result with
   | Returns r => Returns r
   | Raises (HTTPException status detail) => Raises (HTTPException status detail)
   | Raises e =>
       Raises (HTTPException 500 (utf8 "Classification failed: " ++ exn_str e))
   end).

(** The body of the [for] loop of [/batch-classify]: the calls made so far
    and the [results] list are threaded through.  [clock k] are the clock
    readings that the backend call of iteration [k] observes. *)
Definition batch_step (clock : nat -> float * float)
           (state : list call * list BatchItem)
           (email : ClassifyRequest) : list call * list BatchItem :=
  let full_text := full_text_of email in
  let (calls, result) :=
    run_backend (clock (List.length (snd state))) email full_text in
  (fst state ++ calls,
   snd state ++ [match result with
                 | Returns r => Succeeded r
                 | Raises e => Failed (exn_str e)
                 end]).

(** [POST /batch-classify] *)
Definition batch_classify (clock : nat -> float * float)
           (emails : list ClassifyRequest) : list call * outcome BatchResponse :=
  if (100 <? Z.of_nat (List.length emails))%Z then
    ([], Raises (HTTPException 400 (utf8 "Maximum 100 emails per batch")))
  else
    let (calls, results) := fold_left (batch_step clock) emails ([], []) in
    (calls,
     Returns {| results := results; total := Z.of_nat (List.length results) |}).
End Endpoints.

End Server.

(* ================================================================== *)
(** * PhoBERT-Service/app/classifier.py                                 *)
(* ================================================================== *)

Module PhoBERTService.

(** Category mapping *)
Definition CATEGORIES : list (Z * str) := Eval vm_compute in
  [ (0%Z, utf8 "primary");
    (1%Z, utf8 "important");
    (2%Z, utf8 "social");
    (3%Z, utf8 "promotions");
    (4%Z, utf8 "updates");
    (5%Z, utf8 "spam") ].

Definition SENTIMENTS : list (Z * str) := Eval vm_compute in
  [ (0%Z, utf8 "negative");
    (1%Z, utf8 "neutral");
    (2%Z, utf8 "positive") ].

(** [TABLE.get(pred_class, default)] on the two tables above. *)
Fixpoint label_get (table : list (Z * str)) (k : Z) (default : str) : str :=
  match table with
  | [] => default
  | (k', v) :: table' => if (k' =? k)%Z then v else label_get table' k default
  end.

(** The dictionary built by [classify]. *)
Record Classification : Type := {
  category : str;
  is_spam : bool;
  spam_score : float;
  sentiment : str;
  sentiment_score : float;
  confidence : float
}.

(** The dictionaries of [detect_spam] and [analyze_sentiment]. *)
Record SpamResult : Type := {
  sr_is_spam : bool;
  sr_spam_score : float;
  sr_confidence : float
}.

Record SentimentResult : Type := {
  se_sentiment : str;
  se_score : float;
  se_confidence : float
}.

Section Classifier.
(** Tokenized input (a dictionary of tensors). *)
Variable Inputs : Type.

(** A loaded sequence-classification model as [_predict] uses it: softmax
    and argmax over its logits give [(pred_class, confidence)], or inference
    raises. *)
Definition Model : Type := Inputs -> outcome (Z * float).

Record PhoBERTClassifier : Type := {
  is_loaded : bool;
  tokenizer : option (str -> outcome Inputs);
  spam_model : option Model;
  sentiment_model : option Model;
  category_model : option Model
}.

Variable self : PhoBERTClassifier.

Definition _preprocess (text : str) : outcome Inputs :=
  match tokenizer self with
  | None => Raises (ValueError (utf8 "Tokenizer not loaded"))
  | Some tokenize => tokenize text
  end.

Definition _predict (model : Model) (inputs : Inputs) : outcome (Z * float) :=
  model inputs.

Definition detect_spam (text : str) : SpamResult :=
  let result :=
    {| sr_is_spam := false; sr_spam_score := 0.0; sr_confidence := 0.0 |} in
  match spam_model self with
  | None => result
  | Some model =>
      match (inputs <- _preprocess text ;; _predict model inputs) with
      | Returns (pred_class, confidence) =>
          (* Assuming class 1 is spam *)
          {| sr_is_spam := (pred_class =? 1)%Z;
             sr_spam_score :=
               if (pred_class =? 1)%Z then confidence else (1 - confidence)%float;
             sr_confidence := confidence |}
      | Raises _ => result
      end
  end.

Definition analyze_sentiment (text : str) : SentimentResult :=
  let result :=
    {| se_sentiment := utf8 "neutral"; se_score := 0.0; se_confidence := 0.0 |} in
  match sentiment_model self with
  | None => result
  | Some model =>
      match (inputs <- _preprocess text ;; _predict model inputs) with
      | Returns (pred_class, confidence) =>
          {| se_sentiment := label_get SENTIMENTS pred_class (utf8 "neutral");
             se_score := confidence;
             se_confidence := confidence |}
      | Raises _ => result
      end
  end.

(** [result["confidence"] = sum(confidences) / len(confidences)] when the
    list is not empty. *)
Definition with_overall (result : Classification) (confidences : list float)
  : Classification :=
  match confidences with
  | [] => result
  | _ :: _ =>
      {| category := category result;
         is_spam := is_spam result;
         spam_score := spam_score result;
         sentiment := sentiment result;
         sentiment_score := sentiment_score result;
         confidence :=
           (fold_left PrimFloat.add confidences 0
            / float_of_int (Z.of_nat (List.length confidences)))%float |}
  end.

(** [classify]: [result] is updated in place, so what was written before an
    exception is what the [except] branch returns. *)
Definition classify (text : str) : Classification :=
  let result :=
    {| category := utf8 "primary"; is_spam := false; spam_score := 0.0;
       sentiment := utf8 "neutral"; sentiment_score := 0.0;
       confidence := 0.0 |} in
  if negb (is_loaded self) then result
  else
    match _preprocess text with
    | Raises _ => result
    | Returns inputs =>
        let confidences := [] in
        (* Spam detection *)
        let (result, confidences) :=
          match spam_model self with
          | Some _ =>
              let spam_result := detect_spam text in
              ({| category := category result;
                  is_spam := sr_is_spam spam_result;
                  spam_score := sr_spam_score spam_result;
                  sentiment := sentiment result;
                  sentiment_score := sentiment_score result;
                  confidence := confidence result |},
               confidences ++ [sr_confidence spam_result])
          | None => (result, confidences)
          end in
        (* Sentiment analysis *)
        let (result, confidences) :=
          match sentiment_model self with
          | Some _ =>
              let sentiment_result := analyze_sentiment text in
              ({| category := category result;
                  is_spam := is_spam result;
                  spam_score := spam_score result;
                  sentiment := se_sentiment sentiment_result;
                  sentiment_score := se_score sentiment_result;
                  confidence := confidence result |},
               confidences ++ [se_confidence sentiment_result])
          | None => (result, confidences)
          end in
        (* Category classification *)
        match category_model self with
        | Some model =>
            match _predict model inputs with
            | Raises _ => result
            | Returns (pred_class, conf) =>
                with_overall
                  {| category := label_get CATEGORIES pred_class (utf8 "primary");
                     is_spam := is_spam result;
                     spam_score := spam_score result;
                     sentiment := sentiment result;
                     sentiment_score := sentiment_score result;
                     confidence := confidence result |}
                  (confidences ++ [conf])
            end
        | None => with_overall result confidences
        end
    end.
End Classifier.

End PhoBERTService.

(* ================================================================== *)
(** * Specification vocabulary                                          *)
(* ================================================================== *)

Module Spec.

(** [p] occurs in [s] as a contiguous substring. *)
Definition Substring (p s : str) : Prop :=
  exists before after, s = before ++ p ++ after.

(** How many entries of [keywords] occur at least once in [text]. *)
Definition present (keywords : list str) (text : str) : Z :=
  Z.of_nat (List.length (filter (fun kw => str_in kw text) keywords)).

(** How many times [p] occurs in [s]: the number of positions of [s] at which
    [p] starts. *)
Fixpoint occurrences (p s : str) : Z :=
  ((if startswith p s then 1 else 0) +
   match s with
   | [] => 0
   | _ :: s' => occurrences p s'
   end)%Z.

(** The keywords of two sets taken together, each once. *)
Definition union (a b : list str) : list str :=
  nodup (list_eq_dec N.eq_dec) (a ++ b).

(** The score as the specification words it: the total number of occurrences
    in the text of the keywords of the union of the language's set and the
    English set. *)
Definition occurrence_score (table : dict (list str)) (language text : str) : Z :=
  fold_right Z.add 0%Z
    (map (fun kw => occurrences kw text)
         (union (get table language []) (get table (utf8 "en") []))).

(** The three language-indexed tables. *)
Definition language_tables : list (dict (list str)) :=
  [RuleBasedClassifier.SPAM_KEYWORDS;
   RuleBasedClassifier.POSITIVE_KEYWORDS;
   RuleBasedClassifier.NEGATIVE_KEYWORDS].

(** The keyword score of a language-indexed table on a lower-cased text, as
    the scorer computes it. *)
Definition language_score (table : dict (list str)) (language text_lower : str) : Z :=
  RuleBasedClassifier.hits
    (get table language [] ++ get table (utf8 "en") []) text_lower.

(** The four keyword categories in declaration order. *)
Definition category_order : list str := Eval vm_compute in
  map utf8 ["important"; "social"; "promotions"; "updates"]%string.

(** The keyword count of one category pattern. *)
Definition category_count (cat text_lower : str) : Z :=
  RuleBasedClassifier.hits (get RuleBasedClassifier.CATEGORY_PATTERNS cat []) text_lower.

(** Every keyword of every table of the rule-based scorer. *)
Definition all_keywords : list str :=
  List.concat (values RuleBasedClassifier.SPAM_KEYWORDS)
  ++ List.concat (values RuleBasedClassifier.POSITIVE_KEYWORDS)
  ++ List.concat (values RuleBasedClassifier.NEGATIVE_KEYWORDS)
  ++ List.concat (values RuleBasedClassifier.CATEGORY_PATTERNS).

(** What the rule-based scorer returns when nothing matches. *)
Definition neutral_default : ClassifyResult :=
  {| is_spam := false;
     spam_confidence := 0.5;
     category := utf8 "primary";
     category_confidence := 0.6;
     sentiment := utf8 "neutral";
     sentiment_confidence := 0.6;
     processing_time_ms := 1.0 |}.

(** The entry the batch runner records for one e-mail taken alone: the outcome
    of the backend on it, tagged.  [times] are the clock readings of the
    backend call. *)
Definition item_alone (lower_at : str -> nat -> str) (round : float -> Z -> float)
           (classifier : option Server.PhoBERTClassifier)
           (times : float * float)
           (email : Server.ClassifyRequest) : Server.BatchItem :=
  match snd (Server.run_backend lower_at round classifier times email
                                (Server.full_text_of email)) with
  | Returns r => Server.Succeeded r
  | Raises e => Server.Failed (exn_str e)
  end.

(** Two results that differ at most in the measured [processing_time_ms]. *)
Definition same_verdict (r r' : ClassifyResult) : Prop :=
  is_spam r = is_spam r' /\
  spam_confidence r = spam_confidence r' /\
  category r = category r' /\
  category_confidence r = category_confidence r' /\
  sentiment r = sentiment r' /\
  sentiment_confidence r = sentiment_confidence r'.

(** Two batch entries that are both failures with one message, or both
    successes that differ at most in the measured [processing_time_ms]. *)
Definition same_entry (a b : Server.BatchItem) : Prop :=
  match a, b with
  | Server.Succeeded r, Server.Succeeded r' => same_verdict r r'
  | Server.Failed msg, Server.Failed msg' => msg = msg'
  | _, _ => False
  end.

(** The two client errors of the endpoints. *)
Definition EmptyInputError : exn :=
  HTTPException 400 (utf8 "Email content cannot be empty").

Definition BatchTooLargeError : exn :=
  HTTPException 400 (utf8 "Maximum 100 emails per batch").

(** A loaded classifier of PhoBERT-Service whose category model has six
    classes, one per entry of [CATEGORIES], and predicts the last one. *)
Definition six_class_classifier : PhoBERTService.PhoBERTClassifier str :=
  {| PhoBERTService.is_loaded := true;
     PhoBERTService.tokenizer := Some (fun text => Returns text);
     PhoBERTService.spam_model := None;
     PhoBERTService.sentiment_model := None;
     PhoBERTService.category_model := Some (fun _ => Returns (5%Z, 0.9%float)) |}.

(** A loaded model-backed classifier of Email-System-Server whose spam
    inference fails on the texts that start with "boom". *)
Definition flaky_classifier : Server.PhoBERTClassifier :=
  {| Server.models_loaded := true;
     Server.predict_spam := fun text =>
       if startswith (utf8 "boom") text then inr (utf8 "inference failed")
       else inl (true, 0.9%float);
     Server.predict_sentiment := fun _ =>
       inl (utf8 "positive", 0.8%float,
            [(utf8 "negative", 0.05%float); (utf8 "neutral", 0.15%float);
             (utf8 "positive", 0.8%float)]);
     Server.predict_category := fun _ => inl (utf8 "social", 0.7%float) |}.

(** What [flaky_classifier] answers when the measured time is [ms]. *)
Definition flaky_answer (ms : float) : ClassifyResult :=
  {| is_spam := true;
     spam_confidence := 0.9;
     category := utf8 "social";
     category_confidence := 0.7;
     sentiment := utf8 "positive";
     sentiment_confidence := 0.8;
     processing_time_ms := ms |}.

(** Clock readings for the examples: the call of iteration [k] starts at
    [k] seconds and ends [k + 1] quarters of a second later. *)
Definition sample_clock (k : nat) : float * float :=
  (float_of_int (Z.of_nat k),
   (float_of_int (Z.of_nat k) + 0.25 * float_of_int (Z.of_nat (S k)))%float).

(** [round] on the values of the examples, which have no more decimals than
    asked for. *)
Definition exact_round (x : float) (ndigits : Z) : float := x.

(** A loaded classifier of PhoBERT-Service with its three models: spam
    (class 1), positive (class 2) and promotions (class 3). *)
Definition three_model_classifier : PhoBERTService.PhoBERTClassifier str :=
  {| PhoBERTService.is_loaded := true;
     PhoBERTService.tokenizer := Some (fun text => Returns text);
     PhoBERTService.spam_model := Some (fun _ => Returns (1%Z, 0.9%float));
     PhoBERTService.sentiment_model := Some (fun _ => Returns (2%Z, 0.8%float));
     PhoBERTService.category_model := Some (fun _ => Returns (3%Z, 0.7%float)) |}.

Definition email (subject body : string) : Server.ClassifyRequest :=
  {| Server.subject := utf8 subject;
     Server.body := utf8 body;
     Server.language := utf8 "vi" |}.

(** Five e-mails, the third of which makes [flaky_classifier] fail. *)
Definition sample_batch : list Server.ClassifyRequest :=
  [email "hello" "one"; email "hello" "two"; email "boom" "three";
   email "hello" "four"; email "hello" "five"].

(** The five folder categories and the three sentiments of the label schema. *)
Definition category_labels : list str := Eval vm_compute in
  map utf8 ["important"; "social"; "promotions"; "updates"; "primary"]%string.

Definition sentiment_labels : list str := Eval vm_compute in
  map utf8 ["negative"; "neutral"; "positive"]%string.

End Spec.

(* ================================================================== *)
(** * Email-System-Server/phobert-service/main.py, continued            *)
(* ================================================================== *)

Module EmailServer.

Import Server.

(** [SentimentResponse] *)
Record SentimentResponse : Type := {
  resp_sentiment : str;
  resp_confidence : float;
  resp_scores : dict float
}.

(** [HealthResponse] *)
Record HealthResponse : Type := {
  status : str;
  model_loaded : bool;
  device : str;
  message : str
}.

(** [PhoBERTClassifier.preprocess_text]: the text handed to the tokenizer,
    which stands for the tokenizer call and the move of its tensors to the
    device. *)
Definition preprocess_text {Inputs : Type} (tokenizer : str -> Z -> outcome Inputs)
           (text : str) (max_length : Z) : outcome Inputs :=
  let text := if negb (truthy text) then utf8 " " else text in
  (* Truncate very long texts *)
  let text := firstn 5000 text in
  tokenizer text max_length.

Section Endpoints.
Variable lower_at : str -> nat -> str.
Variable classifier : option PhoBERTClassifier.
(** [classifier.predict_sentiment(text)]: the triple it returns, or the
    message of the exception inference raised. *)
Variable predict_sentiment :
  PhoBERTClassifier -> str -> (str * float * dict float) + str.
(** [round(x, 4)] *)
Variable round4 : float -> float.
(** [str(classifier.device)] *)
Variable device_of : PhoBERTClassifier -> str.

(** The [else] branch of [/sentiment]: the rule-based scorer with its default
    language and the fixed prior scores. *)
Definition fallback_sentiment (text : str) : outcome (str * float * dict float) :=
  result <- RuleBasedClassifier.classify lower_at text (utf8 "vi") ;;
  let sentiment := sentiment result in
  let confidence := sentiment_confidence result in
  let scores := [(utf8 "positive", 0.33%float); (utf8 "neutral", 0.34%float);
                 (utf8 "negative", 0.33%float)] in
  let scores := setitem scores sentiment confidence in
  Returns (sentiment, confidence, scores).

(** [POST /sentiment] *)
Definition analyze_sentiment (text : str) : outcome SentimentResponse :=
  let response :=
    if negb (truthy text) then
      Raises (HTTPException 400 (utf8 "Text cannot be empty"))
    else
      answer <- match classifier with
                | Some c =>
                    if models_loaded c then
                      match predict_sentiment c text with
                      | inl answer => Returns answer
                      | inr msg => Raises (Exception msg)
                      end
                    else fallback_sentiment text
                | None => fallback_sentiment text
                end ;;
      Returns {| resp_sentiment := fst (fst answer);
                 resp_confidence := round4 (snd (fst answer));
                 resp_scores := snd answer |} in
  match response with
  | Returns r => Returns r
  | Raises (HTTPException status detail) => Raises (HTTPException status detail)
  | Raises e => Raises (HTTPException 500 (utf8 "Analysis failed: " ++ exn_str e))
  end.

(** [GET /health] *)
Definition health_check : HealthResponse :=
  let model_loaded :=
    match classifier with
    | Some c => models_loaded c
    | None => false
    end in
  let device :=
    match classifier with
    | Some c => device_of c
    | None => utf8 "cpu"
    end in
  {| status := utf8 "healthy";
     model_loaded := model_loaded;
     device := device;
     message := if model_loaded then utf8 "PhoBERT loaded"
                else utf8 "Using rule-based fallback" |}.
End Endpoints.

End EmailServer.

(* ================================================================== *)
(** * PhoBERT-Service/app/classifier.py, continued                      *)
(* ================================================================== *)

(** ** The mock classifier *)

Module MockClassifier.

Import PhoBERTService.

(** [any(word in text_lower for word in words)] *)
Definition any_in (words : list str) (text_lower : str) : bool :=
  existsb (fun word => str_in word text_lower) words.

Definition spam_words : list str := Eval vm_compute in
  map utf8 ["miễn phí"; "trúng thưởng"; "click here"; "free"; "winner"]%string.
Definition positive_words : list str := Eval vm_compute in
  map utf8 ["cảm ơn"; "tuyệt vời"; "great"; "thanks"]%string.
Definition negative_words : list str := Eval vm_compute in
  map utf8 ["lỗi"; "tệ"; "error"; "bad"; "problem"]%string.
Definition social_words : list str := Eval vm_compute in
  map utf8 ["facebook"; "instagram"; "social"]%string.
Definition promotions_words : list str := Eval vm_compute in
  map utf8 ["sale"; "discount"; "khuyến mãi"]%string.
Definition updates_words : list str := Eval vm_compute in
  map utf8 ["update"; "cập nhật"; "shipping"]%string.
Definition important_words : list str := Eval vm_compute in
  map utf8 ["urgent"; "important"; "quan trọng"]%string.

Section Mock.
Variable lower_at : str -> nat -> str.

Definition classify (text : str) : Classification :=
  (* Simple rule-based classification for testing *)
  let text_lower := lower lower_at text in
  let is_spam := any_in spam_words text_lower in
  let sentiment :=
    if any_in positive_words text_lower then utf8 "positive"
    else if any_in negative_words text_lower then utf8 "negative"
    else utf8 "neutral" in
  let category :=
    if any_in social_words text_lower then utf8 "social"
    else if any_in promotions_words text_lower then utf8 "promotions"
    else if any_in updates_words text_lower then utf8 "updates"
    else if any_in important_words text_lower then utf8 "important"
    else utf8 "primary" in
  {| category := category;
     is_spam := is_spam;
     spam_score := if is_spam then 0.8 else 0.1;
     sentiment := sentiment;
     sentiment_score := 0.7;
     confidence := 0.6 |}.

Definition detect_spam (text : str) : SpamResult :=
  let result := classify text in
  {| sr_is_spam := is_spam result;
     sr_spam_score := spam_score result;
     sr_confidence := 0.6 |}.

Definition analyze_sentiment (text : str) : SentimentResult :=
  let result := classify text in
  {| se_sentiment := sentiment result;
     se_score := sentiment_score result;
     se_confidence := 0.6 |}.
End Mock.

End MockClassifier.

(** ** Loading the models *)

Module Loader.

Import PhoBERTService.

(** [os.path.join(a, b)] on POSIX paths. *)
Definition path_join (a b : str) : str :=
  if startswith (utf8 "/") b then b
  else match rev a with
       | [] => b
       | c :: _ => if (c =? 47)%N then a ++ b else a ++ utf8 "/" ++ b
       end.

(** What [get_classifier] hands out. *)
Inductive Classifier (Inputs : Type) : Type :=
| Real (c : PhoBERTClassifier Inputs)
| Mock.
Arguments Mock {Inputs}.

Section Loading.
Variable Inputs : Type.
(** The module-level flag: whether [transformers] and [torch] were imported. *)
Variable TRANSFORMERS_AVAILABLE : bool.
(** [os.path.exists] *)
Variable path_exists : str -> bool.
(** [AutoTokenizer.from_pretrained] *)
Variable tokenizer_from_pretrained : str -> outcome (str -> outcome Inputs).
(** [AutoModelForSequenceClassification.from_pretrained] *)
Variable model_from_pretrained : str -> outcome (Model Inputs).
(** [model.to(self.device)] followed by [model.eval()] *)
Variable move_and_eval : Model Inputs -> outcome unit.
Variable model_path : str.

(** One loading block,
    [if os.path.exists(path): self.m = from_pretrained(path); self.m.to(...);
    self.m.eval()]: the model assigned to the attribute, if any, and whether
    the block raised.  The attribute is assigned before [.to] and [.eval], so
    it stays assigned when they raise. *)
Definition load_if_exists (name : str) : option (Model Inputs) * bool :=
  let path := path_join model_path name in
  if path_exists path then
    match model_from_pretrained path with
    | Raises _ => (None, true)
    | Returns model =>
        match move_and_eval model with
        | Raises _ => (Some model, true)
        | Returns _ => (Some model, false)
        end
    end
  else (None, false).

(** An attribute assigned only when its directory exists keeps its former
    value otherwise. *)
Definition assigned {A : Type} (loaded former : option A) : option A :=
  match loaded with
  | Some _ => loaded
  | None => former
  end.

Definition is_some {A : Type} (o : option A) : bool :=
  match o with Some _ => true | None => false end.

(** The tokenizer block: the saved tokenizer when its directory exists, the
    default PhoBERT tokenizer otherwise. *)
Definition load_tokenizer : outcome (str -> outcome Inputs) :=
  let tokenizer_path := path_join model_path (utf8 "tokenizer") in
  if path_exists tokenizer_path then tokenizer_from_pretrained tokenizer_path
  else
    (* Use default PhoBERT tokenizer *)
    tokenizer_from_pretrained (utf8 "vinai/phobert-base").

(** [_load_models]: the attributes are assigned one after the other, so an
    exception leaves those already assigned in place and clears [is_loaded]. *)
Definition _load_models (self : PhoBERTClassifier Inputs) : PhoBERTClassifier Inputs :=
  if negb TRANSFORMERS_AVAILABLE then self
  else
    (* Load tokenizer (shared across all models) *)
    match load_tokenizer with
    | Raises _ =>
        {| is_loaded := false; tokenizer := tokenizer self;
           spam_model := spam_model self; sentiment_model := sentiment_model self;
           category_model := category_model self |}
    | Returns tok =>
        (* Load spam model *)
        let (spam, raised) := load_if_exists (utf8 "spam_model") in
        let spam_model := assigned spam (spam_model self) in
        if raised then
          {| is_loaded := false; tokenizer := Some tok;
             spam_model := spam_model;
             sentiment_model := sentiment_model self;
             category_model := category_model self |}
        else
          (* Load sentiment model *)
          let (senti, raised) := load_if_exists (utf8 "sentiment_model") in
          let sentiment_model := assigned senti (sentiment_model self) in
          if raised then
            {| is_loaded := false; tokenizer := Some tok;
               spam_model := spam_model;
               sentiment_model := sentiment_model;
               category_model := category_model self |}
          else
            (* Load category model *)
            let (cat, raised) := load_if_exists (utf8 "category_model") in
            let category_model := assigned cat (category_model self) in
            if raised then
              {| is_loaded := false; tokenizer := Some tok;
                 spam_model := spam_model;
                 sentiment_model := sentiment_model;
                 category_model := category_model |}
            else
              (* Check if at least one model is loaded *)
              {| is_loaded := is_some spam_model || is_some sentiment_model
                              || is_some category_model;
                 tokenizer := Some tok;
                 spam_model := spam_model;
                 sentiment_model := sentiment_model;
                 category_model := category_model |}
    end.

(** [PhoBERTClassifier.__init__].  The device expression reads
    [torch.cuda.is_available()] first, and [torch] is bound only when the
    imports succeeded. *)
Definition __init__ : outcome (PhoBERTClassifier Inputs) :=
  if TRANSFORMERS_AVAILABLE then
    Returns (_load_models
               {| is_loaded := false; tokenizer := None; spam_model := None;
                  sentiment_model := None; category_model := None |})
  else Raises (Exception (utf8 "name 'torch' is not defined")).

(** [get_classifier] *)
Definition get_classifier : outcome (Classifier Inputs) :=
  if TRANSFORMERS_AVAILABLE then
    classifier <- __init__ ;;
    if is_loaded classifier then Returns (Real classifier)
    else Returns Mock
  else Returns Mock.

(** The [is_loaded] attribute of either classifier. *)
Definition loaded (c : Classifier Inputs) : bool :=
  match c with
  | Real c => is_loaded c
  | Mock => true
  end.

(** The loading block of the sub-directory [name] raises: the directory
    exists and [from_pretrained], [.to] or [.eval] fails. *)
Definition block_raises (name : str) : Prop :=
  let path := path_join model_path name in
  path_exists path = true /\
  ((exists e, model_from_pretrained path = Raises e) \/
   (exists model e, model_from_pretrained path = Returns model /\
                    move_and_eval model = Raises e)).

(** The loading block of the sub-directory [name] completes: the directory
    is absent, or its model loads, moves and is set to evaluation mode. *)
Definition block_completes (name : str) : Prop :=
  let path := path_join model_path name in
  path_exists path = false \/
  (exists model u, model_from_pretrained path = Returns model /\
                   move_and_eval model = Returns u).
End Loading.

End Loader.

(* ================================================================== *)
(** * PhoBERT-Service/app/main.py                                       *)
(* ================================================================== *)

Module App.

Import PhoBERTService.

(** [ClassifyRequest]: three optional strings. *)
Record ClassifyRequest : Type := {
  subject : option str;
  body : option str;
  text : option str
}.

Record HealthResponse : Type := {
  status : str;
  model_loaded : bool;
  version : str
}.

(** An optional string inside an f-string: [None] prints as "None". *)
Definition fmt (o : option str) : str :=
  match o with
  | Some s => s
  | None => utf8 "None"
  end.

(** [a or b] on an optional string and a string. *)
Definition or_else (a : option str) (b : str) : str :=
  match a with
  | Some (c :: s) => c :: s
  | _ => b
  end.

Section Endpoints.
Variable Inputs : Type.
(** The module-level [classifier], [None] when construction failed. *)
Variable classifier : option (PhoBERTClassifier Inputs).

Definition model_not_loaded : exn := HTTPException 503 (utf8 "Model not loaded").
Definition no_text : exn := HTTPException 400 (utf8 "No text provided").

(** [startup_event]: the constructor's exception is logged and [classifier]
    stays [None]. *)
Definition startup_event (constructed : outcome (PhoBERTClassifier Inputs))
  : option (PhoBERTClassifier Inputs) :=
  match constructed with
  | Returns c => Some c
  | Raises _ => None
  end.

(** [GET /health] *)
Definition health_check : HealthResponse :=
  {| status := utf8 "healthy";
     model_loaded := match classifier with
                     | Some c => is_loaded c
                     | None => false
                     end;
     version := utf8 "1.0.0" |}.

(** [POST /classify] *)
Definition classify_email (request : ClassifyRequest) : outcome Classification :=
  match classifier with
  | None => Raises model_not_loaded
  | Some c =>
      if negb (is_loaded c) then Raises model_not_loaded
      else
        (* Combine text for classification *)
        let text := or_else (text request)
                            (strip (fmt (subject request) ++ utf8 " "
                                    ++ fmt (body request))) in
        if negb (truthy text) then Raises no_text
        else Returns (classify c text)
  end.

(** [POST /spam] *)
Definition detect_spam (text : str) : outcome SpamResult :=
  match classifier with
  | None => Raises model_not_loaded
  | Some c =>
      if negb (is_loaded c) then Raises model_not_loaded
      else if negb (truthy text) then Raises no_text
      else Returns (PhoBERTService.detect_spam c text)
  end.

(** [POST /sentiment] *)
Definition analyze_sentiment (text : str) : outcome SentimentResult :=
  match classifier with
  | None => Raises model_not_loaded
  | Some c =>
      if negb (is_loaded c) then Raises model_not_loaded
      else if negb (truthy text) then Raises no_text
      else Returns (PhoBERTService.analyze_sentiment c text)
  end.
End Endpoints.

End App.

(* ================================================================== *)
(** * Facts about the runtime                                           *)
(* ================================================================== *)

Unset Implicit Arguments.

Section RuntimeFacts.

Lemma str_eqb_eq (a b : str) : str_eqb a b = true <-> a = b.
Proof.
  unfold str_eqb. destruct (list_eq_dec N.eq_dec a b); split; congruence.
Qed.

Lemma str_eqb_neq (a b : str) : str_eqb a b = false <-> a <> b.
Proof.
  unfold str_eqb. destruct (list_eq_dec N.eq_dec a b); split; congruence.
Qed.

Lemma lower_nil (lower_at : str -> nat -> str) : lower lower_at [] = [].
Proof. reflexivity. Qed.

Lemma startswith_app (p s : str) :
  startswith p s = true <-> exists after, s = p ++ after.
Proof.
  revert s. induction p as [|a p IH]; intros s; simpl.
  - split; [intros _; now exists s | reflexivity].
  - destruct s as [|b s].
    + split; [discriminate | intros [after H]; discriminate].
    + rewrite andb_true_iff, N.eqb_eq, IH. split.
      * intros [-> [after ->]]. now exists after.
      * intros [after H]. injection H as -> ->. split; [reflexivity | now exists after].
Qed.

Lemma str_in_Substring (p s : str) :
  str_in p s = true <-> Spec.Substring p s.
Proof.
  unfold Spec.Substring. induction s as [|c s IH].
  - simpl. rewrite orb_false_r, startswith_app. split.
    + intros [after H]. now exists [], after.
    + intros [before [after H]]. destruct before; [now exists after | discriminate].
  - cbn [str_in]. rewrite orb_true_iff, startswith_app, IH. split.
    + intros [[after H] | [before [after H]]].
      * now exists [], after.
      * exists (c :: before), after. now rewrite H.
    + intros [before [after H]]. destruct before as [|c' before].
      * left. now exists after.
      * right. injection H as _ H. now exists before, after.
Qed.

Lemma str_in_nil_false (p : str) : p <> [] -> str_in p [] = false.
Proof. destruct p; [congruence | reflexivity]. Qed.

Lemma fold_sum_ones_acc {A : Type} (p : A -> bool) (xs : list A) (acc : Z) :
  fold_left (fun acc x => if p x then acc + 1 else acc)%Z xs acc
  = (acc + Z.of_nat (List.length (filter p xs)))%Z.
Proof.
  revert acc. induction xs as [|x xs IH]; intros acc; simpl.
  - lia.
  - rewrite IH. destruct (p x); simpl List.length; lia.
Qed.

Lemma sum_ones_filter {A : Type} (p : A -> bool) (xs : list A) :
  sum_ones p xs = Z.of_nat (List.length (filter p xs)).
Proof. unfold sum_ones. now rewrite fold_sum_ones_acc. Qed.

Lemma sum_ones_app {A : Type} (p : A -> bool) (xs ys : list A) :
  sum_ones p (xs ++ ys) = (sum_ones p xs + sum_ones p ys)%Z.
Proof.
  rewrite !sum_ones_filter, filter_app, length_app. lia.
Qed.

Lemma sum_ones_bounds {A : Type} (p : A -> bool) (xs : list A) :
  (0 <= sum_ones p xs <= Z.of_nat (List.length xs))%Z.
Proof.
  rewrite sum_ones_filter. pose proof (filter_length_le p xs). lia.
Qed.

Lemma sum_ones_none {A : Type} (p : A -> bool) (xs : list A) :
  (forall x, In x xs -> p x = false) -> sum_ones p xs = 0%Z.
Proof.
  intros H. rewrite sum_ones_filter.
  replace (filter p xs) with (@nil A); [reflexivity|].
  induction xs as [|x xs IH]; simpl; [reflexivity|].
  rewrite (H x (or_introl eq_refl)). apply IH. intros y Hy. apply H. now right.
Qed.

(** [max(xs, key=f)] returns the first element whose key is maximal. *)
Lemma fold_best_first {A : Type} (f : A -> Z) (xs before : list A) (best : A)
      (after : list A) :
  (forall y, In y before -> (f y < f best)%Z) ->
  (forall y, In y after -> (f y <= f best)%Z) ->
  let m := fold_left (fun best y => if (f best <? f y)%Z then y else best) xs best in
  exists before' after',
    before ++ best :: after ++ xs = before' ++ m :: after' /\
    (forall y, In y before' -> (f y < f m)%Z) /\
    (forall y, In y after' -> (f y <= f m)%Z).
Proof.
  revert before best after. induction xs as [|x xs IH]; intros before best after Hb Ha; simpl.
  - exists before, after. now rewrite app_nil_r.
  - destruct (Z.ltb_spec (f best) (f x)) as [Hlt | Hge].
    + destruct (IH (before ++ best :: after) x []) as (b' & a' & E & Hb' & Ha').
      * intros y Hy. apply in_app_or in Hy. destruct Hy as [Hy | [<- | Hy]].
        -- specialize (Hb y Hy). lia.
        -- exact Hlt.
        -- specialize (Ha y Hy). lia.
      * intros y [].
      * exists b', a'. split; [|now split].
        rewrite <- E. simpl. now rewrite <- !app_assoc.
    + destruct (IH before best (after ++ [x])) as (b' & a' & E & Hb' & Ha').
      * exact Hb.
      * intros y Hy. apply in_app_or in Hy. destruct Hy as [Hy | [<- | []]]; auto.
      * exists b', a'. split; [|now split].
        rewrite <- E. now rewrite <- app_assoc.
Qed.

Lemma max_key_first {A : Type} (f : A -> Z) (x : A) (xs : list A) :
  exists m before after,
    max_key f (x :: xs) = Returns m /\
    x :: xs = before ++ m :: after /\
    (forall y, In y before -> (f y < f m)%Z) /\
    (forall y, In y after -> (f y <= f m)%Z).
Proof.
  destruct (fold_best_first f xs [] x []) as (b & a & E & Hb & Ha);
    [intros y [] | intros y [] |].
  exists (fold_left (fun best y => if (f best <? f y)%Z then y else best) xs x), b, a.
  repeat split; auto.
Qed.

(** [max(xs)] is an element of [xs] that bounds all of them. *)
Lemma max_int_spec (x : Z) (xs : list Z) :
  exists m, max_int (x :: xs) = Returns m /\ In m (x :: xs) /\
            forall y, In y (x :: xs) -> (y <= m)%Z.
Proof.
  destruct (max_key_first (fun z => z) x xs) as (m & b & a & E & L & Hb & Ha).
  exists m. split; [exact E|]. split.
  - rewrite L. apply in_or_app. right. now left.
  - intros y Hy. rewrite L in Hy. apply in_app_or in Hy.
    destruct Hy as [Hy | [<- | Hy]]; [specialize (Hb y Hy) | | specialize (Ha y Hy)]; lia.
Qed.

(** Assigning fresh keys one after the other fills the dictionary in order. *)
Lemma setitem_fresh {V : Type} (d : dict V) (k : str) (v : V) :
  ~ In k (keys d) -> setitem d k v = d ++ [(k, v)].
Proof.
  induction d as [|[k' v'] d IH]; simpl; intros H; [reflexivity|].
  destruct (str_eqb k' k) eqn:E.
  - apply str_eqb_eq in E. tauto.
  - f_equal. apply IH. tauto.
Qed.

Lemma fold_setitem_fresh {K V : Type} (g : K -> V) (entries : list (str * K))
      (d : dict V) :
  NoDup (keys d ++ map fst entries) ->
  fold_left (fun scores (entry : str * K) =>
               let (k, x) := entry in setitem scores k (g x)) entries d
  = d ++ map (fun entry => (fst entry, g (snd entry))) entries.
Proof.
  revert d. induction entries as [|[k x] entries IH]; intros d H; simpl.
  - now rewrite app_nil_r.
  - rewrite setitem_fresh.
    + rewrite IH.
      * now rewrite <- app_assoc.
      * unfold keys in *. rewrite map_app, <- app_assoc. exact H.
    + simpl in H. apply NoDup_remove_2 in H. intros Hin. apply H.
      apply in_or_app. now left.
Qed.

Lemma lookup_map_snd {K V : Type} (g : K -> V) (d : dict K) (k : str) :
  lookup (map (fun entry => (fst entry, g (snd entry))) d) k
  = option_map g (lookup d k).
Proof.
  induction d as [|[k' x] d IH]; simpl; [reflexivity|].
  destruct (str_eqb k' k); [reflexivity | exact IH].
Qed.

Lemma lookup_In_keys {V : Type} (d : dict V) (k : str) :
  In k (keys d) -> exists v, lookup d k = Some v.
Proof.
  induction d as [|[k' v'] d IH]; simpl; [intros []|].
  intros [-> | H].
  - exists v'. now rewrite (proj2 (str_eqb_eq k k) eq_refl).
  - destruct (str_eqb k' k); [now exists v' | now apply IH].
Qed.

End RuntimeFacts.

(* ================================================================== *)
(** * Facts about the rule-based scorer                                 *)
(* ================================================================== *)

Section ScorerFacts.

Import RuleBasedClassifier.

Lemma lookup_In {V : Type} (d : dict V) (k : str) (v : V) :
  lookup d k = Some v -> In k (keys d) /\ In v (values d).
Proof.
  induction d as [|[k' v'] d IH]; simpl; [discriminate|].
  destruct (str_eqb k' k) eqn:E.
  - apply str_eqb_eq in E. intros [= ->]. auto.
  - intros H. destruct (IH H). auto.
Qed.

Lemma In_values_lookup {V : Type} (d : dict V) (v : V) :
  NoDup (keys d) -> In v (values d) -> exists k, In k (keys d) /\ lookup d k = Some v.
Proof.
  induction d as [|[k' v'] d IH]; simpl; [intros _ []|].
  intros ND [<- | H].
  - exists k'. split; [now left|]. now rewrite (proj2 (str_eqb_eq k' k') eq_refl).
  - inversion ND as [|? ? Hnot ND']; subst.
    destruct (IH ND' H) as (k & Hk & L). exists k. split; [now right|].
    destruct (str_eqb k' k) eqn:E; [|exact L].
    apply str_eqb_eq in E. subst. contradiction.
Qed.

Lemma get_In_values {V : Type} (d : dict V) (k : str) (default : V) :
  In (get d k default) (default :: values d).
Proof.
  unfold get. destruct (lookup d k) eqn:E; [|now left].
  right. now apply (lookup_In d k).
Qed.

Lemma hits_present (keywords : list str) (t : str) :
  hits keywords t = Spec.present keywords t.
Proof. apply sum_ones_filter. Qed.

Lemma hits_bounds (keywords : list str) (t : str) :
  (0 <= hits keywords t <= Z.of_nat (List.length keywords))%Z.
Proof. apply sum_ones_bounds. Qed.

Lemma language_table_english (table : dict (list str)) :
  In table Spec.language_tables ->
  item table (utf8 "en") = Returns (get table (utf8 "en") []).
Proof.
  intros [<- | [<- | [<- | []]]]; reflexivity.
Qed.

Lemma keyword_score_returns (table : dict (list str)) (language t : str) :
  In table Spec.language_tables ->
  keyword_score table language t
  = Returns (hits (get table language [] ++ get table (utf8 "en") []) t).
Proof.
  intros H. unfold keyword_score. now rewrite (language_table_english table H).
Qed.

Lemma language_table_sizes (table : dict (list str)) (language : str) :
  In table Spec.language_tables ->
  (List.length (get table language [] ++ get table (utf8 "en") []) <= 20)%nat.
Proof.
  intros H.
  assert (B : forall l, In l ([] :: values table) -> (List.length l <= 10)%nat).
  { apply Forall_forall.
    destruct H as [<- | [<- | [<- | []]]]; repeat constructor; simpl; lia. }
  rewrite length_app.
  pose proof (B _ (get_In_values table language [])).
  pose proof (B _ (get_In_values table (utf8 "en") [])). lia.
Qed.

Lemma language_score_bounds (table : dict (list str)) (language t : str) :
  In table Spec.language_tables ->
  (0 <= hits (get table language [] ++ get table (utf8 "en") []) t <= 20)%Z.
Proof.
  intros H. pose proof (hits_bounds (get table language [] ++ get table (utf8 "en") []) t).
  pose proof (language_table_sizes table language H). lia.
Qed.

(** On the small integers that a keyword count can be, the products of the
    confidence formulas do not depend on the order of their operands. *)
Lemma small_int_cases (P : Z -> Prop) (n : nat) :
  Forall P (map Z.of_nat (seq 0 (S n))) ->
  forall z, (0 <= z <= Z.of_nat n)%Z -> P z.
Proof.
  intros H z Hz. rewrite Forall_forall in H. apply H.
  apply in_map_iff. exists (Z.to_nat z). split; [lia|].
  apply in_seq. lia.
Qed.

Lemma mul_tenth_comm (z : Z) :
  (0 <= z <= 20)%Z -> (float_of_int z * 0.1 = 0.1 * float_of_int z)%float.
Proof.
  apply (small_int_cases (fun z => float_of_int z * 0.1 = 0.1 * float_of_int z)%float 20).
  repeat (constructor; [vm_compute; reflexivity|]). constructor.
Qed.

Lemma mul_15_comm (z : Z) :
  (0 <= z <= 20)%Z -> (float_of_int z * 0.15 = 0.15 * float_of_int z)%float.
Proof.
  apply (small_int_cases (fun z => float_of_int z * 0.15 = 0.15 * float_of_int z)%float 20).
  repeat (constructor; [vm_compute; reflexivity|]). constructor.
Qed.

Lemma category_keys_distinct : NoDup (keys CATEGORY_PATTERNS).
Proof.
  replace (keys CATEGORY_PATTERNS)
    with (nodup (list_eq_dec N.eq_dec) (keys CATEGORY_PATTERNS))
    by (vm_compute; reflexivity).
  apply NoDup_nodup.
Qed.

Lemma category_keys_order : keys CATEGORY_PATTERNS = Spec.category_order.
Proof. reflexivity. Qed.

Lemma category_scores_of_map (t : str) :
  category_scores_of t
  = map (fun entry => (fst entry, hits (snd entry) t)) CATEGORY_PATTERNS.
Proof.
  unfold category_scores_of.
  rewrite (fold_setitem_fresh (fun kws => hits kws t) CATEGORY_PATTERNS []).
  - reflexivity.
  - exact category_keys_distinct.
Qed.

Lemma category_scores_keys (t : str) :
  keys (category_scores_of t) = Spec.category_order.
Proof.
  rewrite category_scores_of_map. unfold keys. rewrite map_map. reflexivity.
Qed.

Lemma category_scores_get (t cat : str) :
  get (category_scores_of t) cat 0%Z = Spec.category_count cat t.
Proof.
  rewrite category_scores_of_map. unfold Spec.category_count, get.
  rewrite (lookup_map_snd (fun kws => hits kws t)).
  destruct (lookup CATEGORY_PATTERNS cat); reflexivity.
Qed.

Lemma category_count_bounds (cat t : str) :
  (0 <= Spec.category_count cat t <= 7)%Z.
Proof.
  unfold Spec.category_count.
  pose proof (hits_bounds (get CATEGORY_PATTERNS cat []) t).
  assert (B : forall l, In l ([] :: values CATEGORY_PATTERNS) -> (List.length l <= 7)%nat).
  { apply Forall_forall. repeat constructor; simpl; lia. }
  pose proof (B _ (get_In_values CATEGORY_PATTERNS cat [])). lia.
Qed.

End ScorerFacts.

Section ScorerTheorems.

Import RuleBasedClassifier.
Variable lower_at : str -> nat -> str.

Lemma choose_category_spec (scores : dict Z) :
  scores <> [] -> NoDup (keys scores) ->
  (forall v, In v (values scores) -> (0 <= v)%Z) ->
  exists cat,
    choose_category scores = Returns cat /\
    ((forall k, In k (keys scores) -> get scores k 0%Z = 0%Z) /\
     cat = (utf8 "primary", 0.6%float)
     \/
     exists before after,
       keys scores = before ++ fst cat :: after /\
       (0 < get scores (fst cat) 0)%Z /\
       (forall k, In k before -> (get scores k 0 < get scores (fst cat) 0)%Z) /\
       (forall k, In k after -> (get scores k 0 <= get scores (fst cat) 0)%Z) /\
       snd cat = fmin (0.5 + float_of_int (get scores (fst cat) 0%Z) * 0.15) 0.85).
Proof.
  intros Hne ND Hpos. unfold choose_category.
  destruct scores as [|[k0 v0] rest]; [congruence|].
  destruct (max_int_spec v0 (values rest)) as (top & Etop & Htop & Hmax).
  change (values ((k0, v0) :: rest)) with (v0 :: values rest).
  rewrite Etop. cbn [bind].
  set (scores := (k0, v0) :: rest) in *.
  destruct (Z.ltb_spec 0 top) as [Hgt | Hle].
  - destruct (max_key_first (fun k => get scores k 0%Z) k0 (keys rest))
      as (m & before & after & Em & L & Hb & Ha).
    change (keys scores) with (k0 :: keys rest).
    rewrite Em. cbn [bind].
    assert (Hm : In m (keys scores)).
    { change (keys scores) with (k0 :: keys rest). rewrite L.
      apply in_or_app. right. now left. }
    destruct (lookup_In_keys scores m Hm) as (v & Ev).
    unfold item. rewrite Ev. cbn [bind].
    assert (Gm : get scores m 0%Z = v) by (unfold get; now rewrite Ev).
    exists (m, fmin (0.5 + float_of_int v * 0.15) 0.85). split; [reflexivity|].
    right. exists before, after. cbn [fst snd]. rewrite Gm.
    split; [exact L|]. split.
    + destruct (In_values_lookup scores top ND Htop) as (k & Hk & Ek).
      assert (Gk : get scores k 0%Z = top) by (unfold get; now rewrite Ek).
      change (keys scores) with (k0 :: keys rest) in Hk. rewrite L in Hk.
      apply in_app_or in Hk. rewrite <- Gm.
      destruct Hk as [Hk | [<- | Hk]];
        [specialize (Hb k Hk) | | specialize (Ha k Hk)]; cbv beta in *; lia.
    + rewrite <- Gm. repeat split; auto.
  - exists (utf8 "primary", 0.6%float). split; [reflexivity|]. left.
    split; [|reflexivity].
    intros k Hk. destruct (lookup_In_keys scores k Hk) as (v & Ev).
    unfold get. rewrite Ev.
    destruct (lookup_In scores k v Ev) as [_ Hv].
    specialize (Hpos v Hv). specialize (Hmax v Hv). lia.
Qed.

(** The category block on the scores of a text. *)
Lemma choose_category_of_text (t : str) :
  exists cat,
    choose_category (category_scores_of t) = Returns cat /\
    ((forall k, In k Spec.category_order -> Spec.category_count k t = 0%Z) /\
     cat = (utf8 "primary", 0.6%float)
     \/
     exists before after,
       Spec.category_order = before ++ fst cat :: after /\
       (0 < Spec.category_count (fst cat) t)%Z /\
       (forall k, In k before ->
                  (Spec.category_count k t < Spec.category_count (fst cat) t)%Z) /\
       (forall k, In k after ->
                  (Spec.category_count k t <= Spec.category_count (fst cat) t)%Z) /\
       snd cat = fmin (0.5 + 0.15 * float_of_int (Spec.category_count (fst cat) t)) 0.85).
Proof.
  destruct (choose_category_spec (category_scores_of t)) as (cat & E & H).
  - rewrite category_scores_of_map. discriminate.
  - rewrite category_scores_keys.
    rewrite <- category_keys_order. exact category_keys_distinct.
  - intros v Hv. rewrite category_scores_of_map in Hv.
    unfold values in Hv. rewrite map_map in Hv. apply in_map_iff in Hv.
    destruct Hv as (entry & <- & _). apply hits_bounds.
  - exists cat. split; [exact E|].
    rewrite category_scores_keys in H.
    destruct H as [[Hz ->] | (before & after & L & Hgt & Hb & Ha & Hc)].
    + left. split; [|reflexivity].
      intros k Hk. rewrite <- category_scores_get. now apply Hz.
    + right. exists before, after.
      rewrite !category_scores_get in *.
      split; [exact L|]. split; [exact Hgt|]. split.
      * intros k Hk. rewrite <- (category_scores_get t k). now apply Hb.
      * split.
        -- intros k Hk. rewrite <- (category_scores_get t k). now apply Ha.
        -- rewrite Hc. rewrite mul_15_comm; [reflexivity|].
           pose proof (category_count_bounds (fst cat) t). lia.
Qed.

(** [classify] in closed form: it returns, and every field is determined by
    the three language scores and the category block. *)
Lemma classify_returns (text language : str) :
  let t := lower lower_at text in
  let spam_score := Spec.language_score SPAM_KEYWORDS language t in
  let pos_score := Spec.language_score POSITIVE_KEYWORDS language t in
  let neg_score := Spec.language_score NEGATIVE_KEYWORDS language t in
  exists cat,
    choose_category (category_scores_of t) = Returns cat /\
    classify lower_at text language =
    Returns
      {| is_spam := (2 <=? spam_score)%Z;
         spam_confidence :=
           if (2 <=? spam_score)%Z
           then fmin (0.5 + float_of_int spam_score * 0.1) 0.95
           else fmax (0.5 - float_of_int spam_score * 0.1) 0.1;
         category := fst cat;
         category_confidence := snd cat;
         sentiment :=
           if (neg_score <? pos_score)%Z then utf8 "positive"
           else if (pos_score <? neg_score)%Z then utf8 "negative"
           else utf8 "neutral";
         sentiment_confidence :=
           if (neg_score <? pos_score)%Z
           then fmin (0.5 + float_of_int pos_score * 0.1) 0.9
           else if (pos_score <? neg_score)%Z
                then fmin (0.5 + float_of_int neg_score * 0.1) 0.9
                else 0.6;
         processing_time_ms := 1.0 |}.
Proof.
  intros t spam_score pos_score neg_score.
  destruct (choose_category_of_text t) as (cat & E & _).
  exists cat. split; [exact E|].
  unfold classify. fold t.
  rewrite !keyword_score_returns by (simpl; tauto).
  cbn [bind]. rewrite E. cbn [bind].
  fold (Spec.language_score SPAM_KEYWORDS language t).
  fold (Spec.language_score POSITIVE_KEYWORDS language t).
  fold (Spec.language_score NEGATIVE_KEYWORDS language t).
  fold spam_score pos_score neg_score.
  destruct (neg_score <? pos_score)%Z; [reflexivity|].
  destruct (pos_score <? neg_score)%Z; reflexivity.
Qed.

(** C2.  The spam decision: for every text and language the scorer returns,
    [is_spam] holds exactly when the spam keyword score is at least 2, and the
    spam confidence is [min(0.5 + 0.1*score, 0.95)] when [is_spam] holds and
    [max(0.5 - 0.1*score, 0.1)] when it does not. *)
Theorem spam_threshold_and_confidence (text language : str) :
  let score := Spec.language_score SPAM_KEYWORDS language (lower lower_at text) in
  exists r,
    classify lower_at text language = Returns r /\
    keyword_score SPAM_KEYWORDS language (lower lower_at text) = Returns score /\
    (is_spam r = true <-> (2 <= score)%Z) /\
    spam_confidence r =
      if is_spam r then fmin (0.5 + 0.1 * float_of_int score) 0.95
      else fmax (0.5 - 0.1 * float_of_int score) 0.1.
Proof.
  intros score.
  destruct (classify_returns text language) as (cat & _ & E).
  eexists. split; [exact E|]. cbn [is_spam spam_confidence]. fold score.
  split; [apply keyword_score_returns; simpl; tauto|].
  split; [apply Z.leb_le|].
  assert (B : (0 <= score <= 20)%Z) by (apply language_score_bounds; simpl; tauto).
  now rewrite (mul_tenth_comm score B).
Qed.

(** C4.  The sentiment decision: more positive than negative keywords give
    "positive" with confidence [min(0.5 + 0.1*positive, 0.9)]; more negative
    than positive give "negative" with confidence
    [min(0.5 + 0.1*negative, 0.9)]; equal counts, both zero included, give
    "neutral" with confidence 0.6. *)
Theorem sentiment_by_majority (text language : str) :
  let pos := Spec.language_score POSITIVE_KEYWORDS language (lower lower_at text) in
  let neg := Spec.language_score NEGATIVE_KEYWORDS language (lower lower_at text) in
  exists r,
    classify lower_at text language = Returns r /\
    keyword_score POSITIVE_KEYWORDS language (lower lower_at text) = Returns pos /\
    keyword_score NEGATIVE_KEYWORDS language (lower lower_at text) = Returns neg /\
    ((neg < pos)%Z /\ sentiment r = utf8 "positive" /\
       sentiment_confidence r = fmin (0.5 + 0.1 * float_of_int pos) 0.9
     \/
     (pos < neg)%Z /\ sentiment r = utf8 "negative" /\
       sentiment_confidence r = fmin (0.5 + 0.1 * float_of_int neg) 0.9
     \/
     pos = neg /\ sentiment r = utf8 "neutral" /\ sentiment_confidence r = 0.6%float).
Proof.
  intros pos neg.
  destruct (classify_returns text language) as (cat & _ & E).
  eexists. split; [exact E|]. cbn [sentiment sentiment_confidence]. fold pos neg.
  split; [apply keyword_score_returns; simpl; tauto|].
  split; [apply keyword_score_returns; simpl; tauto|].
  assert (Bp : (0 <= pos <= 20)%Z) by (apply language_score_bounds; simpl; tauto).
  assert (Bn : (0 <= neg <= 20)%Z) by (apply language_score_bounds; simpl; tauto).
  rewrite (mul_tenth_comm pos Bp), (mul_tenth_comm neg Bn).
  destruct (Z.ltb_spec neg pos) as [H | H]; [left; auto|].
  destruct (Z.ltb_spec pos neg) as [H' | H']; [right; left; auto|].
  right; right. repeat split. lia.
Qed.

(** C3.  The category decision: when some pattern has a positive count the
    category is the first one, in the order important, social, promotions,
    updates, whose count is the maximum (every earlier category has a strictly
    smaller count, every later one a smaller or equal count), with confidence
    [min(0.5 + 0.15*count, 0.85)]; when the four counts are zero the category is
    "primary" with confidence 0.6. *)
Theorem category_first_maximum (text language : str) :
  let t := lower lower_at text in
  exists r,
    classify lower_at text language = Returns r /\
    ((forall c, In c Spec.category_order -> Spec.category_count c t = 0%Z) /\
     category r = utf8 "primary" /\ category_confidence r = 0.6%float
     \/
     exists before after,
       Spec.category_order = before ++ category r :: after /\
       (0 < Spec.category_count (category r) t)%Z /\
       (forall c, In c before ->
                  (Spec.category_count c t < Spec.category_count (category r) t)%Z) /\
       (forall c, In c after ->
                  (Spec.category_count c t <= Spec.category_count (category r) t)%Z) /\
       category_confidence r =
         fmin (0.5 + 0.15 * float_of_int (Spec.category_count (category r) t)) 0.85).
Proof.
  intros t.
  destruct (classify_returns text language) as (cat & Ecat & E).
  destruct (choose_category_of_text t) as (cat' & Ecat' & H).
  fold t in Ecat. rewrite Ecat in Ecat'. injection Ecat' as <-.
  eexists. split; [exact E|]. cbn [category category_confidence].
  destruct H as [[Hz ->] | H]; [left; auto | right; exact H].
Qed.

End ScorerTheorems.

Section ScorerDefaults.

Import RuleBasedClassifier.
Variable lower_at : str -> nat -> str.

Lemma Substring_nil (kw : str) : Spec.Substring kw [] -> kw = [].
Proof.
  intros (before & after & H). symmetry in H.
  apply app_eq_nil in H. destruct H as [_ H].
  apply app_eq_nil in H. tauto.
Qed.

Lemma keywords_not_empty : forall kw, In kw Spec.all_keywords -> kw <> [].
Proof.
  apply Forall_forall.
  assert (H : forallb truthy Spec.all_keywords = true) by (vm_compute; reflexivity).
  rewrite forallb_forall in H. apply Forall_forall. intros kw Hkw.
  specialize (H kw Hkw). destruct kw; [discriminate | congruence].
Qed.

Lemma In_all_keywords (table : dict (list str)) (l : list str) (kw : str) :
  In table (Spec.language_tables ++ [CATEGORY_PATTERNS]) ->
  In l (values table) -> In kw l -> In kw Spec.all_keywords.
Proof.
  intros Ht Hl Hkw. unfold Spec.all_keywords.
  assert (Hc : In kw (List.concat (values table))).
  { apply in_concat. now exists l. }
  rewrite !in_app_iff.
  destruct Ht as [<- | [<- | [<- | [<- | []]]]]; tauto.
Qed.

Lemma hits_none (table : dict (list str)) (key t : str) :
  In table (Spec.language_tables ++ [CATEGORY_PATTERNS]) ->
  (forall kw, In kw Spec.all_keywords -> ~ Spec.Substring kw t) ->
  hits (get table key []) t = 0%Z.
Proof.
  intros Ht H. apply sum_ones_none. intros kw Hkw.
  destruct (get_In_values table key []) as [E | Hl].
  - rewrite <- E in Hkw. destruct Hkw.
  - destruct (str_in kw t) eqn:E; [|reflexivity].
    apply str_in_Substring in E.
    destruct (H kw (In_all_keywords table _ kw Ht Hl Hkw) E).
Qed.

Lemma language_score_none (table : dict (list str)) (language t : str) :
  In table Spec.language_tables ->
  (forall kw, In kw Spec.all_keywords -> ~ Spec.Substring kw t) ->
  Spec.language_score table language t = 0%Z.
Proof.
  intros Ht H. unfold Spec.language_score, hits. rewrite sum_ones_app.
  assert (Ht' : In table (Spec.language_tables ++ [CATEGORY_PATTERNS]))
    by (apply in_or_app; now left).
  fold (hits (get table language []) t). fold (hits (get table (utf8 "en") []) t).
  now rewrite !(hits_none table _ t Ht' H).
Qed.

(** Without any keyword in the lower-cased text the scorer returns the neutral
    defaults. *)
Lemma classify_no_keyword (text language : str) :
  (forall kw, In kw Spec.all_keywords -> ~ Spec.Substring kw (lower lower_at text)) ->
  classify lower_at text language = Returns Spec.neutral_default.
Proof.
  intros H.
  destruct (classify_returns lower_at text language) as (cat & Ecat & E).
  rewrite E. clear E.
  rewrite !language_score_none by (simpl; tauto || exact H).
  destruct (choose_category_of_text (lower lower_at text)) as (cat' & Ecat' & Hc).
  rewrite Ecat in Ecat'. injection Ecat' as <-.
  destruct Hc as [[_ ->] | (before & after & _ & Hgt & _)].
  - reflexivity.
  - unfold Spec.category_count in Hgt. rewrite hits_none in Hgt; [lia | | exact H].
    apply in_or_app. right. now left.
Qed.

Lemma classify_empty (language : str) :
  classify lower_at [] language = Returns Spec.neutral_default.
Proof.
  apply classify_no_keyword. rewrite lower_nil.
  intros kw Hkw Hsub. apply Substring_nil in Hsub.
  now apply (keywords_not_empty kw).
Qed.

(** C9.  The rule-based scorer returns a result for every text and language;
    when no keyword of any table occurs in the lower-cased text, and in
    particular on the empty string, the result has [is_spam = false],
    category "primary" and sentiment "neutral". *)
Theorem scorer_total_with_neutral_defaults (text language : str) :
  (exists r, classify lower_at text language = Returns r) /\
  ((forall kw, In kw Spec.all_keywords ->
               ~ Spec.Substring kw (lower lower_at text)) ->
   exists r, classify lower_at text language = Returns r /\
             is_spam r = false /\
             category r = utf8 "primary" /\
             sentiment r = utf8 "neutral") /\
  (exists r, classify lower_at [] language = Returns r /\
             is_spam r = false /\
             category r = utf8 "primary" /\
             sentiment r = utf8 "neutral").
Proof.
  split; [|split].
  - destruct (classify_returns lower_at text language) as (cat & _ & E). eauto.
  - intros H. exists Spec.neutral_default.
    split; [now apply classify_no_keyword | repeat split].
  - exists Spec.neutral_default.
    split; [apply classify_empty | repeat split].
Qed.

End ScorerDefaults.

Section KeywordScores.

Import RuleBasedClassifier.

Lemma present_app (xs ys : list str) (t : str) :
  Spec.present (xs ++ ys) t = (Spec.present xs t + Spec.present ys t)%Z.
Proof. rewrite <- !hits_present. apply sum_ones_app. Qed.

(** The score of a language table, whatever the language code: the entries of
    the language's list that are present, plus those of the English list. *)
Lemma keyword_score_two_lists (table : dict (list str)) (language t : str) :
  In table Spec.language_tables ->
  keyword_score table language t
  = Returns (Spec.present (get table language []) t
             + Spec.present (get table (utf8 "en") []) t)%Z.
Proof.
  intros H. rewrite (keyword_score_returns table language t H).
  now rewrite hits_present, present_app.
Qed.

Lemma get_other_language (table : dict (list str)) (language : str) :
  In table Spec.language_tables -> language <> utf8 "en" ->
  get table language [] = get table (utf8 "vi") [] \/ lookup table language = None.
Proof.
  intros Ht Hen.
  assert (E : utf8 "en" <> language) by congruence.
  apply str_eqb_neq in E.
  destruct (str_eqb (utf8 "vi") language) eqn:V.
  - apply str_eqb_eq in V. subst language. now left.
  - right. destruct Ht as [<- | [<- | [<- | []]]];
      cbn [lookup SPAM_KEYWORDS POSITIVE_KEYWORDS NEGATIVE_KEYWORDS];
      change (utf8 "vi") with [118%N; 105%N] in V;
      change (utf8 "en") with [101%N; 110%N] in E;
      unfold SPAM_KEYWORDS, POSITIVE_KEYWORDS, NEGATIVE_KEYWORDS; cbn [lookup];
      now rewrite V, E.
Qed.

Lemma union_other_language (table : dict (list str)) (language : str) :
  In table Spec.language_tables -> language <> utf8 "en" ->
  Spec.union (get table language []) (get table (utf8 "en") [])
  = get table language [] ++ get table (utf8 "en") [].
Proof.
  intros Ht Hen.
  destruct (get_other_language table language Ht Hen) as [E | E].
  - rewrite E. destruct Ht as [<- | [<- | [<- | []]]]; vm_compute; reflexivity.
  - unfold get at 1 3. rewrite E.
    destruct Ht as [<- | [<- | [<- | []]]]; vm_compute; reflexivity.
Qed.

(** C5, as the code has it.  For each of the spam, positive and negative
    tables and every language code other than "en", the score is the number of
    keywords of the union of the language's set and the English set that occur
    at least once in the lower-cased text: what counts is whether a keyword is
    a substring, not how often it occurs, so two texts containing the same
    keywords get the same score.  The English set is counted for every such
    language, and alone when the code is unknown.  Each category count is the
    number of keywords of its pattern that occur at least once. *)
Theorem keyword_score_counts_present_keywords
        (table : dict (list str)) (language t : str) :
  In table Spec.language_tables -> language <> utf8 "en" ->
  let english := get table (utf8 "en") [] in
  keyword_score table language t
    = Returns (Spec.present (Spec.union (get table language []) english) t) /\
  (forall kw, str_in kw t = true <-> Spec.Substring kw t) /\
  (forall t', (forall kw, In kw (get table language [] ++ english) ->
                          (Spec.Substring kw t <-> Spec.Substring kw t')) ->
              keyword_score table language t' = keyword_score table language t) /\
  (exists own, keyword_score table language t
               = Returns (own + Spec.present english t)%Z /\ (0 <= own)%Z) /\
  (lookup table language = None ->
   keyword_score table language t = Returns (Spec.present english t)) /\
  (forall cat keywords, In (cat, keywords) CATEGORY_PATTERNS ->
     lookup (category_scores_of t) cat = Some (Spec.present keywords t)).
Proof.
  intros Ht Hen english. subst english.
  split; [|split; [|split; [|split; [|split]]]].
  - rewrite (union_other_language table language Ht Hen).
    rewrite <- hits_present. now apply keyword_score_returns.
  - intros kw. apply str_in_Substring.
  - intros t' H. rewrite !keyword_score_returns by exact Ht.
    rewrite !hits_present. unfold Spec.present. do 3 f_equal.
    apply filter_ext_in. intros kw Hkw. specialize (H kw Hkw).
    destruct (str_in kw t) eqn:E.
    + apply str_in_Substring, H, str_in_Substring in E. exact E.
    + destruct (str_in kw t') eqn:E'; [|reflexivity].
      apply str_in_Substring, H, str_in_Substring in E'. congruence.
  - exists (Spec.present (get table language []) t). split.
    + now apply keyword_score_two_lists.
    + unfold Spec.present. lia.
  - intros E. rewrite (keyword_score_two_lists table language t Ht).
    unfold get at 1. rewrite E. reflexivity.
  - intros cat keywords Hin. rewrite category_scores_of_map.
    rewrite (lookup_map_snd (fun kws => hits kws t)).
    assert (L : lookup CATEGORY_PATTERNS cat = Some keywords).
    { destruct Hin as [E | [E | [E | [E | []]]]]; injection E as <- <-; reflexivity. }
    rewrite L. cbn [option_map]. now rewrite hits_present.
Qed.

End KeywordScores.

(* ================================================================== *)
(** * The endpoints                                                     *)
(* ================================================================== *)

Section EndpointTheorems.

Import Server.
Variable lower_at : str -> nat -> str.
Variable round : float -> Z -> float.
Variable classifier : option PhoBERTClassifier.

Lemma truthy_false (s : str) : truthy s = false <-> s = [].
Proof. destruct s; simpl; split; congruence. Qed.

(** The model-backed call returns or raises an inference error. *)
Lemma classify_email_model_outcome (c : PhoBERTClassifier) (times : float * float)
      (subject body : str) :
  (exists r, classify_email_model round c times subject body = Returns r) \/
  (exists msg, classify_email_model round c times subject body
               = Raises (Exception msg)).
Proof.
  unfold classify_email_model.
  destruct (predict_spam c (strip (subject ++ utf8 " " ++ body))) as [spam|msg];
    cbn [predicted bind]; [|eauto].
  destruct (predict_sentiment c (strip (subject ++ utf8 " " ++ body))) as [senti|msg];
    cbn [predicted bind]; [|eauto].
  destruct (predict_category c (strip (subject ++ utf8 " " ++ body))) as [cat|msg];
    cbn [predicted bind]; eauto.
Qed.

(** A backend never raises an [HTTPException]. *)
Lemma run_backend_outcome (times : float * float) (request : ClassifyRequest)
      (full_text : str) :
  (exists r, snd (run_backend lower_at round classifier times request full_text)
             = Returns r) \/
  (exists msg, snd (run_backend lower_at round classifier times request full_text)
               = Raises (Exception msg)).
Proof.
  unfold run_backend.
  destruct (classify_returns lower_at full_text (language request)) as (cat & _ & E).
  destruct classifier as [c|]; [destruct (models_loaded c)|]; cbn [snd];
    try (left; rewrite E; eauto; fail).
  apply classify_email_model_outcome.
Qed.

Lemma run_backend_one_call (times : float * float) (request : ClassifyRequest)
      (full_text : str) :
  exists call,
    fst (run_backend lower_at round classifier times request full_text) = [call].
Proof.
  unfold run_backend.
  destruct classifier as [c|]; [destruct (models_loaded c)|]; cbn [fst]; eauto.
Qed.

Lemma run_backend_unloaded (times : float * float) (request : ClassifyRequest)
      (full_text : str) :
  (forall c, classifier = Some c -> models_loaded c = false) ->
  run_backend lower_at round classifier times request full_text
  = ([RuleCall full_text (language request)],
     RuleBasedClassifier.classify lower_at full_text (language request)).
Proof.
  intros H. unfold run_backend. destruct classifier as [c|]; [|reflexivity].
  now rewrite (H c eq_refl).
Qed.

Lemma same_verdict_refl (r : ClassifyResult) : Spec.same_verdict r r.
Proof. repeat split. Qed.

(** The clock readings of a backend call bear on the measured processing
    time only: with other readings the same backend is called, and it fails
    with the same exception or succeeds with the same verdict. *)
Lemma run_backend_times (times times' : float * float) (request : ClassifyRequest)
      (full_text : str) :
  fst (run_backend lower_at round classifier times request full_text)
  = fst (run_backend lower_at round classifier times' request full_text) /\
  match snd (run_backend lower_at round classifier times request full_text),
        snd (run_backend lower_at round classifier times' request full_text) with
  | Returns r, Returns r' => Spec.same_verdict r r'
  | Raises e, Raises e' => e = e'
  | _, _ => False
  end.
Proof.
  unfold run_backend.
  destruct (classify_returns lower_at full_text (language request)) as (cat & _ & E).
  destruct classifier as [c|]; [destruct (models_loaded c)|]; cbn [fst snd];
    (split; [reflexivity|]);
    try (rewrite E; apply same_verdict_refl).
  unfold classify_email_model.
  destruct (predict_spam c _) as [spam|msg]; cbn [predicted bind]; [|reflexivity].
  destruct (predict_sentiment c _) as [senti|msg]; cbn [predicted bind];
    [|reflexivity].
  destruct (predict_category c _) as [cat'|msg]; cbn [predicted bind];
    [|reflexivity].
  repeat split.
Qed.

Lemma item_alone_times (times times' : float * float) (email : ClassifyRequest) :
  Spec.same_entry (Spec.item_alone lower_at round classifier times email)
                  (Spec.item_alone lower_at round classifier times' email).
Proof.
  unfold Spec.item_alone.
  destruct (run_backend_times times times' email (full_text_of email)) as [_ H].
  destruct (snd (run_backend lower_at round classifier times email _));
    destruct (snd (run_backend lower_at round classifier times' email _));
    cbn [Spec.same_entry]; try contradiction; [exact H | now subst].
Qed.

(** C6.  [/classify] fails with the empty-input error exactly when
    [strip(subject + " " + body)] is empty; it then fails before any backend
    is called; on a non-empty text the request either succeeds or fails with
    status 500, after exactly one backend call. *)
Theorem classify_email_rejects_empty_only (times : float * float)
        (request : ClassifyRequest) :
  (snd (classify_email lower_at round classifier times request)
   = Raises Spec.EmptyInputError
   <-> strip (subject request ++ utf8 " " ++ body request) = []) /\
  (strip (subject request ++ utf8 " " ++ body request) = [] ->
   fst (classify_email lower_at round classifier times request) = []) /\
  (strip (subject request ++ utf8 " " ++ body request) <> [] ->
   List.length (fst (classify_email lower_at round classifier times request)) = 1%nat /\
   ((exists r, snd (classify_email lower_at round classifier times request)
               = Returns r) \/
    (exists detail, snd (classify_email lower_at round classifier times request)
                    = Raises (HTTPException 500 detail)))).
Proof.
  fold (full_text_of request). unfold classify_email.
  destruct (truthy (full_text_of request)) eqn:T; cbn [negb].
  - assert (Hne : full_text_of request <> []).
    { intros E. apply truthy_false in E. congruence. }
    destruct (run_backend lower_at round classifier times request
                          (full_text_of request)) as [calls result] eqn:R.
    assert (Hc : List.length calls = 1%nat).
    { destruct (run_backend_one_call times request (full_text_of request))
        as (call & Hcall).
      rewrite R in Hcall. cbn [fst] in Hcall. now rewrite Hcall. }
    assert (Ho := run_backend_outcome times request (full_text_of request)).
    rewrite R in Ho. cbn [fst snd] in *.
    split; [|split].
    + split; [|tauto].
      destruct Ho as [[r ->] | [msg ->]]; discriminate.
    + tauto.
    + intros _. split; [exact Hc|].
      destruct Ho as [[r ->] | [msg ->]]; eauto.
  - apply truthy_false in T. cbn [fst snd].
    split; [|split]; tauto.
Qed.

(** The e-mails of a batch with the number of their iteration. *)
Lemma nth_error_numbered {A : Type} (l : list A) (n i : nat) (x : A) :
  nth_error l i = Some x ->
  nth_error (combine (seq n (List.length l)) l) i = Some ((n + i)%nat, x).
Proof.
  revert n i. induction l as [|y l IH]; intros n i H.
  - destruct i; discriminate H.
  - destruct i as [|i]; cbn [List.length seq combine nth_error] in *.
    + injection H as ->. now rewrite Nat.add_0_r.
    + rewrite (IH (S n) i H). f_equal. f_equal. lia.
Qed.

Lemma numbered_length {A : Type} (l : list A) (n : nat) :
  List.length (combine (seq n (List.length l)) l) = List.length l.
Proof. rewrite length_combine, length_seq. apply Nat.min_id. Qed.

(** The loop of [/batch-classify] records, in order, one entry per e-mail:
    the outcome of the backend call of its iteration. *)
Lemma fold_batch_step (clock : nat -> float * float) (emails : list ClassifyRequest)
      (calls : list call) (items : list BatchItem) :
  fold_left (batch_step lower_at round classifier clock) emails (calls, items)
  = (calls ++ flat_map (fun numbered =>
                          fst (run_backend lower_at round classifier
                                           (clock (fst numbered)) (snd numbered)
                                           (full_text_of (snd numbered))))
                       (combine (seq (List.length items) (List.length emails)) emails),
     items ++ map (fun numbered =>
                     Spec.item_alone lower_at round classifier
                                     (clock (fst numbered)) (snd numbered))
                  (combine (seq (List.length items) (List.length emails)) emails)).
Proof.
  revert calls items. induction emails as [|email emails IH]; intros calls items.
  - simpl. now rewrite !app_nil_r.
  - cbn [fold_left List.length seq combine flat_map map fst snd].
    unfold batch_step at 2. cbn [snd fst].
    destruct (run_backend lower_at round classifier (clock (List.length items))
                          email (full_text_of email)) as [calls1 result] eqn:R.
    rewrite IH. unfold Spec.item_alone at 2. rewrite R. cbn [fst snd].
    rewrite length_app. cbn [List.length]. rewrite Nat.add_1_r.
    now rewrite <- !app_assoc.
Qed.

Lemma batch_classify_small (clock : nat -> float * float)
      (emails : list ClassifyRequest) :
  (List.length emails <= 100)%nat ->
  batch_classify lower_at round classifier clock emails
  = (flat_map (fun numbered =>
                 fst (run_backend lower_at round classifier
                                  (clock (fst numbered)) (snd numbered)
                                  (full_text_of (snd numbered))))
              (combine (seq 0 (List.length emails)) emails),
     Returns {| results := map (fun numbered =>
                                  Spec.item_alone lower_at round classifier
                                                  (clock (fst numbered))
                                                  (snd numbered))
                               (combine (seq 0 (List.length emails)) emails);
                total := Z.of_nat (List.length emails) |}).
Proof.
  intros H. unfold batch_classify.
  destruct (Z.ltb_spec 100 (Z.of_nat (List.length emails))) as [Hgt | _]; [lia|].
  rewrite fold_batch_step. cbn [app List.length].
  now rewrite length_map, numbered_length.
Qed.

Lemma batch_entry (clock : nat -> float * float) (emails : list ClassifyRequest)
      (i : nat) (email : ClassifyRequest) :
  nth_error emails i = Some email ->
  nth_error (map (fun numbered =>
                    Spec.item_alone lower_at round classifier
                                    (clock (fst numbered)) (snd numbered))
                 (combine (seq 0 (List.length emails)) emails)) i
  = Some (Spec.item_alone lower_at round classifier (clock i) email).
Proof.
  intros H. apply (nth_error_numbered emails 0 i email) in H.
  now rewrite (map_nth_error _ _ _ H).
Qed.

(** C7.  A batch of more than 100 e-mails fails as a whole with the
    batch-size error before any backend is called; a batch of at most 100
    e-mails returns a response. *)
Theorem batch_size_cap (clock : nat -> float * float)
        (emails : list ClassifyRequest) :
  ((100 < List.length emails)%nat ->
   batch_classify lower_at round classifier clock emails
   = ([], Raises Spec.BatchTooLargeError)) /\
  ((List.length emails <= 100)%nat ->
   exists response,
     snd (batch_classify lower_at round classifier clock emails) = Returns response).
Proof.
  split; intros H.
  - unfold batch_classify.
    destruct (Z.ltb_spec 100 (Z.of_nat (List.length emails))) as [_ | Hle];
      [reflexivity | lia].
  - rewrite (batch_classify_small clock emails H). cbn [snd]. eauto.
Qed.

(** C8.  For a batch of at most 100 e-mails the response holds one entry per
    e-mail, in input order, and [total] is the number of e-mails.  The entry
    at position [i] is the outcome of the backend call made for e-mail [i]
    alone, which reads the clock at its own iteration: [success] with the
    classification when that call returns, failure with the message of the
    exception when it raises.  The other e-mails have no part in it: in any
    other batch, at any position and under any clock, the same e-mail is
    recorded with the same success flag, the same error message or the same
    classification, the measured [processing_time_ms] apart, and with the same
    entry when the call reads the same clock. *)
Theorem batch_entries_in_order (clock : nat -> float * float)
        (emails : list ClassifyRequest) :
  (List.length emails <= 100)%nat ->
  exists items,
    snd (batch_classify lower_at round classifier clock emails)
      = Returns {| results := items; total := Z.of_nat (List.length emails) |} /\
    List.length items = List.length emails /\
    (forall i email, nth_error emails i = Some email ->
       nth_error items i
       = Some (Spec.item_alone lower_at round classifier (clock i) email) /\
       (forall r, snd (run_backend lower_at round classifier (clock i) email
                                   (full_text_of email)) = Returns r ->
                  nth_error items i = Some (Succeeded r)) /\
       (forall e, snd (run_backend lower_at round classifier (clock i) email
                                   (full_text_of email)) = Raises e ->
                  nth_error items i = Some (Failed (exn_str e)))) /\
    (forall clock' others i j email,
       (List.length others <= 100)%nat ->
       nth_error emails i = Some email -> nth_error others j = Some email ->
       forall items',
         snd (batch_classify lower_at round classifier clock' others)
           = Returns {| results := items';
                        total := Z.of_nat (List.length others) |} ->
         exists item item',
           nth_error items i = Some item /\ nth_error items' j = Some item' /\
           success item = success item' /\
           Spec.same_entry item item' /\
           (clock' j = clock i -> item' = item)).
Proof.
  intros H.
  eexists. rewrite (batch_classify_small clock emails H). cbn [snd].
  split; [reflexivity|].
  split; [now rewrite length_map, numbered_length|]. split.
  - intros i email Hi.
    pose proof (batch_entry clock emails i email Hi) as E.
    split; [exact E|]. unfold Spec.item_alone in E.
    split; intros x Hx; rewrite Hx in E; exact E.
  - intros clock' others i j email Ho Hi Hj items' E.
    rewrite (batch_classify_small clock' others Ho) in E. cbn [snd] in E.
    injection E as <-.
    exists (Spec.item_alone lower_at round classifier (clock i) email),
           (Spec.item_alone lower_at round classifier (clock' j) email).
    split; [now apply batch_entry|]. split; [now apply batch_entry|].
    pose proof (item_alone_times (clock i) (clock' j) email) as S.
    split; [|split; [exact S|now intros ->]].
    destruct (Spec.item_alone lower_at round classifier (clock i) email);
      destruct (Spec.item_alone lower_at round classifier (clock' j) email);
      cbn [Spec.same_entry] in S; try contradiction; reflexivity.
Qed.

(** C10.  An e-mail of a batch whose stripped subject and body are empty is
    not rejected: like any other e-mail it gets one backend call and its entry
    is the outcome of that call, a success or the failure of inference,
    whichever classifier is installed.  When no model is loaded that call goes
    to the rule-based scorer, on the empty text, and the entry is a success
    carrying the neutral defaults.  [/classify] rejects the same e-mail with
    the empty-input error before calling a backend, whichever classifier is
    installed. *)
Theorem batch_keeps_empty_email (clock : nat -> float * float)
        (emails : list ClassifyRequest) (i : nat) (email : ClassifyRequest) :
  (List.length emails <= 100)%nat ->
  nth_error emails i = Some email ->
  strip (subject email ++ utf8 " " ++ body email) = [] ->
  (exists items,
     snd (batch_classify lower_at round classifier clock emails)
       = Returns {| results := items; total := Z.of_nat (List.length emails) |} /\
     nth_error items i
     = Some (Spec.item_alone lower_at round classifier (clock i) email) /\
     ((exists r, nth_error items i = Some (Succeeded r)) \/
      (exists msg,
         snd (run_backend lower_at round classifier (clock i) email [])
         = Raises (Exception msg) /\
         nth_error items i = Some (Failed msg))) /\
     ((forall c, classifier = Some c -> models_loaded c = false) ->
      nth_error items i = Some (Succeeded Spec.neutral_default))) /\
  (exists call,
     fst (run_backend lower_at round classifier (clock i) email []) = [call] /\
     In call (fst (batch_classify lower_at round classifier clock emails))) /\
  ((forall c, classifier = Some c -> models_loaded c = false) ->
   In (RuleCall [] (language email))
      (fst (batch_classify lower_at round classifier clock emails))) /\
  (forall times,
     classify_email lower_at round classifier times email
     = ([], Raises Spec.EmptyInputError)).
Proof.
  intros Hlen Hi Hempty. fold (full_text_of email) in Hempty.
  rewrite (batch_classify_small clock emails Hlen). cbn [fst snd].
  pose proof (batch_entry clock emails i email Hi) as E.
  pose proof (nth_error_numbered emails 0 i email Hi) as N. cbn [Nat.add] in N.
  assert (Hcalls : forall call,
            In call (fst (run_backend lower_at round classifier (clock i) email []))
            -> In call
                 (flat_map (fun numbered =>
                    fst (run_backend lower_at round classifier
                           (clock (fst numbered)) (snd numbered)
                           (full_text_of (snd numbered))))
                    (combine (seq 0 (List.length emails)) emails))).
  { intros call Hin. apply in_flat_map. exists (i, email). split.
    - eapply nth_error_In; eauto.
    - cbn [fst snd]. now rewrite Hempty. }
  split; [|split; [|split]].
  - eexists. split; [reflexivity|]. split; [exact E|]. split.
    + rewrite E. unfold Spec.item_alone. rewrite Hempty.
      destruct (run_backend_outcome (clock i) email []) as [[r ->] | [msg ->]];
        [left; eauto | right; exists msg; split; reflexivity].
    + intros Hun. rewrite E. unfold Spec.item_alone.
      rewrite Hempty, (run_backend_unloaded (clock i) email [] Hun).
      cbn [snd]. now rewrite (classify_empty lower_at).
  - destruct (run_backend_one_call (clock i) email []) as (call & Hcall).
    exists call. split; [exact Hcall|]. apply Hcalls. rewrite Hcall. now left.
  - intros Hun. apply Hcalls.
    rewrite (run_backend_unloaded (clock i) email [] Hun). now left.
  - intros times. unfold classify_email. rewrite Hempty. reflexivity.
Qed.

End EndpointTheorems.

(* ================================================================== *)
(** * PhoBERT-Service: the labels of [classify]                         *)
(* ================================================================== *)

Section LabelTheorems.

Import PhoBERTService.
Variable Inputs : Type.
Variable self : PhoBERTClassifier Inputs.

Lemma sentiment_label_known (k : Z) :
  In (label_get SENTIMENTS k (utf8 "neutral")) Spec.sentiment_labels.
Proof.
  unfold SENTIMENTS. cbn [label_get].
  destruct (0 =? k)%Z; [simpl; tauto|].
  destruct (1 =? k)%Z; [simpl; tauto|].
  destruct (2 =? k)%Z; simpl; tauto.
Qed.

Lemma category_label_known (k : Z) :
  In (label_get CATEGORIES k (utf8 "primary")) Spec.category_labels \/
  (k = 5%Z /\ label_get CATEGORIES k (utf8 "primary") = utf8 "spam").
Proof.
  unfold CATEGORIES. cbn [label_get].
  destruct (0 =? k)%Z; [left; simpl; tauto|].
  destruct (1 =? k)%Z; [left; simpl; tauto|].
  destruct (2 =? k)%Z; [left; simpl; tauto|].
  destruct (3 =? k)%Z; [left; simpl; tauto|].
  destruct (4 =? k)%Z; [left; simpl; tauto|].
  destruct (Z.eqb_spec 5 k) as [<- | _]; [right; split; reflexivity|].
  left; simpl; tauto.
Qed.

Lemma analyze_sentiment_label (text : str) :
  In (se_sentiment (analyze_sentiment self text)) Spec.sentiment_labels.
Proof.
  unfold analyze_sentiment.
  destruct (sentiment_model self) as [model|]; [|simpl; tauto].
  destruct (_preprocess self text) as [inputs|e]; cbn [bind]; [|simpl; tauto].
  destruct (_predict model inputs) as [[pred_class conf]|e]; [|simpl; tauto].
  apply sentiment_label_known.
Qed.

Lemma with_overall_labels (result : Classification) (confidences : list float) :
  category (with_overall result confidences) = category result /\
  sentiment (with_overall result confidences) = sentiment result.
Proof. destruct confidences; split; reflexivity. Qed.

(** The sentiment of [classify] is always one of the three sentiment labels. *)
Lemma classify_sentiment_label (text : str) :
  In (sentiment (classify self text)) Spec.sentiment_labels.
Proof.
  unfold classify.
  destruct (is_loaded self); cbn [negb]; [|simpl; tauto].
  destruct (_preprocess self text) as [inputs|e]; [|simpl; tauto].
  pose proof (analyze_sentiment_label text) as Hs.
  destruct (spam_model self) as [m1|]; destruct (sentiment_model self) as [m2|];
    destruct (category_model self) as [m|];
    try destruct (_predict m inputs) as [[pred_class conf]|e];
    rewrite ?(proj2 (with_overall_labels _ _)); cbn [sentiment];
    solve [exact Hs | simpl; tauto].
Qed.

(** The category of [classify] is one of the five folder categories or,
    when the category model answers class 5, "spam". *)
Lemma classify_category_label (text : str) :
  In (category (classify self text)) Spec.category_labels \/
  category (classify self text) = utf8 "spam".
Proof.
  unfold classify.
  destruct (is_loaded self); cbn [negb]; [|left; simpl; tauto].
  destruct (_preprocess self text) as [inputs|e]; [|left; simpl; tauto].
  destruct (spam_model self) as [m1|]; destruct (sentiment_model self) as [m2|];
    destruct (category_model self) as [m|];
    try destruct (_predict m inputs) as [[pred_class conf]|e];
    rewrite ?(proj1 (with_overall_labels _ _)); cbn [category];
    solve [ left; simpl; tauto
          | destruct (category_label_known pred_class) as [H | [_ H]]; auto ].
Qed.

End LabelTheorems.

(** C1.  On the classifier whose category model answers class 5 the category
    returned by [classify] is "spam" for every text, which is none of the five
    folder categories; the sentiment is one of the three sentiment labels. *)
Theorem classify_can_return_spam_category (text : str) :
  PhoBERTService.category
    (PhoBERTService.classify Spec.six_class_classifier text) = utf8 "spam" /\
  ~ In (utf8 "spam") Spec.category_labels /\
  In (PhoBERTService.sentiment
        (PhoBERTService.classify Spec.six_class_classifier text))
     Spec.sentiment_labels.
Proof.
  split; [reflexivity|]. split.
  - simpl. intros H. repeat (destruct H as [H | H]; [discriminate H|]). exact H.
  - apply classify_sentiment_label.
Qed.

(* ================================================================== *)
(** * The theorems at concrete inputs                                   *)
(* ================================================================== *)

Section Instances.

Import RuleBasedClassifier Server.

(** The example of the specification: three Vietnamese spam keywords. *)
Example vietnamese_spam_example :
  classify ascii_lower_at (utf8 "miễn phí trúng thưởng click ngay") (utf8 "vi")
  = Returns {| is_spam := true; spam_confidence := 0.8;
               category := utf8 "primary"; category_confidence := 0.6;
               sentiment := utf8 "neutral"; sentiment_confidence := 0.6;
               processing_time_ms := 1.0 |}.
Proof. vm_compute. reflexivity. Qed.

(** A tie between "important" and "social" goes to the first declared. *)
Example category_tie_example :
  exists r, classify ascii_lower_at (utf8 "Urgent: a friend wrote") (utf8 "vi")
            = Returns r /\
            category r = utf8 "important" /\ category_confidence r = 0.65%float.
Proof. eexists. split; [vm_compute; reflexivity | split; reflexivity]. Qed.

(** With the language code "en" the English list is taken twice: one
    keyword present gives a score of 2. *)
Example english_list_taken_twice :
  keyword_score SPAM_KEYWORDS (utf8 "en") (utf8 "winner") = Returns 2%Z.
Proof. vm_compute. reflexivity. Qed.

(** C5 as the specification words it fails: "winner" occurs twice in the
    text, yet the spam score for language "vi" is 1. *)
Lemma keyword_score_is_not_occurrence_count :
  keyword_score SPAM_KEYWORDS (utf8 "vi") (lower ascii_lower_at (utf8 "winner winner"))
    = Returns 1%Z /\
  Spec.occurrence_score SPAM_KEYWORDS (utf8 "vi")
                        (lower ascii_lower_at (utf8 "winner winner")) = 2%Z /\
  keyword_score SPAM_KEYWORDS (utf8 "vi") (lower ascii_lower_at (utf8 "winner winner"))
    <> Returns (Spec.occurrence_score SPAM_KEYWORDS (utf8 "vi")
                  (lower ascii_lower_at (utf8 "winner winner"))).
Proof.
  split; [vm_compute; reflexivity|]. split; [vm_compute; reflexivity|].
  vm_compute. discriminate.
Qed.

Lemma keyword_score_counts_present_keywords_witness :
  In SPAM_KEYWORDS Spec.language_tables /\ utf8 "vi" <> utf8 "en" /\
  keyword_score SPAM_KEYWORDS (utf8 "vi") (utf8 "winner winner")
  = Returns (Spec.present
               (Spec.union (get SPAM_KEYWORDS (utf8 "vi") [])
                           (get SPAM_KEYWORDS (utf8 "en") []))
               (utf8 "winner winner")).
Proof.
  assert (Ht : In SPAM_KEYWORDS Spec.language_tables) by (simpl; tauto).
  assert (Hl : utf8 "vi" <> utf8 "en") by (vm_compute; discriminate).
  split; [exact Ht|]. split; [exact Hl|].
  exact (proj1 (keyword_score_counts_present_keywords
                  SPAM_KEYWORDS (utf8 "vi") (utf8 "winner winner") Ht Hl)).
Defined.

Lemma scorer_total_with_neutral_defaults_witness :
  (forall kw, In kw Spec.all_keywords ->
     ~ Spec.Substring kw (lower ascii_lower_at (utf8 "Hello world"))) /\
  exists r, classify ascii_lower_at (utf8 "Hello world") (utf8 "vi") = Returns r /\
            is_spam r = false /\
            category r = utf8 "primary" /\
            sentiment r = utf8 "neutral".
Proof.
  assert (H : forall kw, In kw Spec.all_keywords ->
     ~ Spec.Substring kw (lower ascii_lower_at (utf8 "Hello world"))).
  { intros kw Hkw Hsub. apply str_in_Substring in Hsub.
    assert (F : forallb (fun kw => negb (str_in kw (lower ascii_lower_at
                                                     (utf8 "Hello world"))))
                        Spec.all_keywords = true) by (vm_compute; reflexivity).
    rewrite forallb_forall in F. specialize (F kw Hkw).
    rewrite Hsub in F. discriminate F. }
  split; [exact H|].
  exact (proj1 (proj2 (scorer_total_with_neutral_defaults
                         ascii_lower_at (utf8 "Hello world") (utf8 "vi"))) H).
Defined.

(** The example of the specification: empty subject and body. *)
Lemma classify_email_rejects_empty_only_witness :
  strip (utf8 EmptyString ++ utf8 " " ++ utf8 EmptyString) = [] /\
  classify_email ascii_lower_at Spec.exact_round None (Spec.sample_clock 0)
                 (Spec.email EmptyString EmptyString)
  = ([], Raises Spec.EmptyInputError).
Proof.
  assert (E : strip (subject (Spec.email EmptyString EmptyString) ++ utf8 " "
                     ++ body (Spec.email EmptyString EmptyString)) = [])
    by (vm_compute; reflexivity).
  split; [exact E|].
  destruct (classify_email_rejects_empty_only
              ascii_lower_at Spec.exact_round None (Spec.sample_clock 0)
              (Spec.email EmptyString EmptyString))
    as (Hiff & Hcalls & _).
  rewrite (surjective_pairing
             (classify_email ascii_lower_at Spec.exact_round None
                             (Spec.sample_clock 0)
                             (Spec.email EmptyString EmptyString))).
  rewrite (Hcalls E), (proj2 Hiff E). reflexivity.
Defined.

(** The example of the specification: a batch of 101 e-mails. *)
Lemma batch_size_cap_witness :
  (100 < List.length (repeat (Spec.email "hello" "world") 101))%nat /\
  batch_classify ascii_lower_at Spec.exact_round None Spec.sample_clock
                 (repeat (Spec.email "hello" "world") 101)
  = ([], Raises Spec.BatchTooLargeError).
Proof.
  assert (H : (100 < List.length (repeat (Spec.email "hello" "world") 101))%nat)
    by (rewrite repeat_length; lia).
  split; [exact H|].
  exact (proj1 (batch_size_cap ascii_lower_at Spec.exact_round None
                               Spec.sample_clock
                               (repeat (Spec.email "hello" "world") 101)) H).
Defined.

(** The example of the specification: the third of five e-mails fails.  The
    four others succeed, each with the processing time of its own call. *)
Example batch_isolation_example :
  exists response,
    snd (batch_classify ascii_lower_at Spec.exact_round
                        (Some Spec.flaky_classifier) Spec.sample_clock
                        Spec.sample_batch)
      = Returns response /\
    results response = [Succeeded (Spec.flaky_answer 250);
                        Succeeded (Spec.flaky_answer 500);
                        Failed (utf8 "inference failed");
                        Succeeded (Spec.flaky_answer 1000);
                        Succeeded (Spec.flaky_answer 1250)] /\
    map success (results response) = [true; true; false; true; true] /\
    total response = 5%Z.
Proof.
  eexists. split; [vm_compute; reflexivity|].
  repeat split; vm_compute; reflexivity.
Qed.

Lemma batch_entries_in_order_witness :
  (List.length Spec.sample_batch <= 100)%nat /\
  exists items,
    snd (batch_classify ascii_lower_at Spec.exact_round
                        (Some Spec.flaky_classifier) Spec.sample_clock
                        Spec.sample_batch)
      = Returns {| results := items; total := 5 |} /\
    List.length items = 5%nat /\
    nth_error items 2 = Some (Failed (utf8 "inference failed")) /\
    nth_error items 3 = Some (Succeeded (Spec.flaky_answer 1000)).
Proof.
  assert (H : (List.length Spec.sample_batch <= 100)%nat) by (simpl; lia).
  split; [exact H|].
  destruct (batch_entries_in_order ascii_lower_at Spec.exact_round
              (Some Spec.flaky_classifier) Spec.sample_clock Spec.sample_batch H)
    as (items & E & L & Hitems & _).
  exists items. split; [exact E|]. split; [exact L|]. split.
  - apply (proj2 (proj2 (Hitems 2%nat (Spec.email "boom" "three") eq_refl))
                 (Exception (utf8 "inference failed"))).
    vm_compute. reflexivity.
  - apply (proj1 (proj2 (Hitems 3%nat (Spec.email "hello" "four") eq_refl))
                 (Spec.flaky_answer 1000)).
    vm_compute. reflexivity.
Defined.

Lemma batch_keeps_empty_email_witness :
  exists items,
    snd (batch_classify ascii_lower_at Spec.exact_round None Spec.sample_clock
                        [Spec.email "hello" "world"; Spec.email " " EmptyString])
      = Returns {| results := items; total := 2 |} /\
    nth_error items 1 = Some (Succeeded Spec.neutral_default) /\
    In (RuleCall [] (utf8 "vi"))
       (fst (batch_classify ascii_lower_at Spec.exact_round None Spec.sample_clock
                            [Spec.email "hello" "world"; Spec.email " " EmptyString])) /\
    classify_email ascii_lower_at Spec.exact_round None (Spec.sample_clock 0)
                   (Spec.email " " EmptyString)
    = ([], Raises Spec.EmptyInputError).
Proof.
  assert (Hun : forall c, @None Server.PhoBERTClassifier = Some c ->
                          models_loaded c = false)
    by (intros c H; discriminate H).
  destruct (batch_keeps_empty_email ascii_lower_at Spec.exact_round None
              Spec.sample_clock
              [Spec.email "hello" "world"; Spec.email " " EmptyString] 1
              (Spec.email " " EmptyString))
    as ((items & E & _ & _ & Hn) & _ & Hcall & Hrej).
  - simpl. lia.
  - reflexivity.
  - vm_compute. reflexivity.
  - exists items. split; [exact E|]. split; [exact (Hn Hun)|].
    split; [exact (Hcall Hun) | exact (Hrej (Spec.sample_clock 0))].
Defined.

(** With a model loaded, the empty e-mail of a batch is handed to the model
    like the others, while [/classify] rejects it. *)
Example empty_email_with_a_model :
  batch_classify ascii_lower_at Spec.exact_round (Some Spec.flaky_classifier)
                 Spec.sample_clock
                 [Spec.email "hello" "world"; Spec.email " " EmptyString]
  = ([ModelCall (utf8 "hello") (utf8 "world"); ModelCall (utf8 " ") []],
     Returns {| results := [Succeeded (Spec.flaky_answer 250);
                            Succeeded (Spec.flaky_answer 500)];
                total := 2 |}) /\
  classify_email ascii_lower_at Spec.exact_round (Some Spec.flaky_classifier)
                 (Spec.sample_clock 0) (Spec.email " " EmptyString)
  = ([], Raises Spec.EmptyInputError).
Proof. split; vm_compute; reflexivity. Qed.

(** Two texts with the same keywords of the lists get the same score, however
    often a keyword occurs and whatever else they contain. *)
Example same_keywords_same_score :
  keyword_score SPAM_KEYWORDS (utf8 "vi") (utf8 "winner winner")
  = keyword_score SPAM_KEYWORDS (utf8 "vi") (utf8 "the winner is").
Proof. vm_compute. reflexivity. Qed.

End Instances.

(* ================================================================== *)
(** * Further properties of the rule-based scorer                       *)
(* ================================================================== *)

Section ScorerRanges.

Import RuleBasedClassifier.
Variable lower_at : str -> nat -> str.

(** The spam confidence as a function of the score. *)
Lemma spam_confidence_cases (z : Z) :
  (0 <= z <= 20)%Z ->
  ((z = 0%Z /\ fmax (0.5 - float_of_int z * 0.1) 0.1 = 0.5%float) \/
   (z = 1%Z /\ fmax (0.5 - float_of_int z * 0.1) 0.1 = 0.4%float) \/
   ((2 <= z)%Z /\
    (0.7 <=? fmin (0.5 + float_of_int z * 0.1) 0.95)%float = true /\
    (fmin (0.5 + float_of_int z * 0.1) 0.95 <=? 0.95)%float = true)).
Proof.
  apply (small_int_cases
           (fun z =>
              (z = 0%Z /\ fmax (0.5 - float_of_int z * 0.1) 0.1 = 0.5%float) \/
              (z = 1%Z /\ fmax (0.5 - float_of_int z * 0.1) 0.1 = 0.4%float) \/
              ((2 <= z)%Z /\
               (0.7 <=? fmin (0.5 + float_of_int z * 0.1) 0.95)%float = true /\
               (fmin (0.5 + float_of_int z * 0.1) 0.95 <=? 0.95)%float = true)) 20).
  constructor; [left; split; vm_compute; reflexivity|].
  constructor; [right; left; split; vm_compute; reflexivity|].
  repeat (constructor;
          [right; right; split; [vm_compute; discriminate|];
           split; vm_compute; reflexivity|]).
  constructor.
Qed.

Lemma sentiment_confidence_range (z : Z) :
  (1 <= z <= 20)%Z ->
  ((0.6 <=? fmin (0.5 + float_of_int z * 0.1) 0.9)%float
   && (fmin (0.5 + float_of_int z * 0.1) 0.9 <=? 0.9)%float) = true.
Proof.
  intros H.
  apply (small_int_cases
           (fun z => (1 <= z)%Z ->
              ((0.6 <=? fmin (0.5 + float_of_int z * 0.1) 0.9)%float
               && (fmin (0.5 + float_of_int z * 0.1) 0.9 <=? 0.9)%float) = true) 20);
    [|lia|lia].
  constructor; [intros H0; lia|].
  repeat (constructor; [intros _; vm_compute; reflexivity|]).
  constructor.
Qed.

Lemma category_confidence_range (z : Z) :
  (1 <= z <= 7)%Z ->
  ((0.6 <=? fmin (0.5 + 0.15 * float_of_int z) 0.85)%float
   && (fmin (0.5 + 0.15 * float_of_int z) 0.85 <=? 0.85)%float) = true.
Proof.
  intros H.
  apply (small_int_cases
           (fun z => (1 <= z)%Z ->
              ((0.6 <=? fmin (0.5 + 0.15 * float_of_int z) 0.85)%float
               && (fmin (0.5 + 0.15 * float_of_int z) 0.85 <=? 0.85)%float) = true) 7);
    [|lia|lia].
  constructor; [intros H0; lia|].
  repeat (constructor; [intros _; vm_compute; reflexivity|]).
  constructor.
Qed.

(** X1.  Every confidence of the rule-based scorer lies in a fixed range: the
    spam confidence is 0.5 or 0.4 for ham (the floor 0.1 of the formula is
    never reached) and between 0.7 and 0.95 for spam; the category and the
    sentiment confidence lie between 0.6 and 0.85, and 0.6 and 0.9. *)
Theorem confidences_in_range (text language : str) :
  exists r,
    classify lower_at text language = Returns r /\
    (is_spam r = false /\
       (spam_confidence r = 0.5%float \/ spam_confidence r = 0.4%float)
     \/
     is_spam r = true /\
       (0.7 <=? spam_confidence r)%float = true /\
       (spam_confidence r <=? 0.95)%float = true) /\
    ((0.6 <=? category_confidence r)%float
     && (category_confidence r <=? 0.85)%float) = true /\
    ((0.6 <=? sentiment_confidence r)%float
     && (sentiment_confidence r <=? 0.9)%float) = true.
Proof.
  destruct (classify_returns lower_at text language) as (cat & Ecat & E).
  eexists. split; [exact E|].
  cbn [is_spam spam_confidence category_confidence sentiment_confidence].
  set (t := lower lower_at text) in *.
  set (s := Spec.language_score SPAM_KEYWORDS language t).
  set (p := Spec.language_score POSITIVE_KEYWORDS language t).
  set (n := Spec.language_score NEGATIVE_KEYWORDS language t).
  assert (Bs : (0 <= s <= 20)%Z) by (apply language_score_bounds; simpl; tauto).
  assert (Bp : (0 <= p <= 20)%Z) by (apply language_score_bounds; simpl; tauto).
  assert (Bn : (0 <= n <= 20)%Z) by (apply language_score_bounds; simpl; tauto).
  split; [|split].
  - destruct (spam_confidence_cases s Bs) as [[Hs C] | [[Hs C] | [Hs [C1 C2]]]].
    + left. rewrite Hs in *. split; [reflexivity|]. left. exact C.
    + left. rewrite Hs in *. split; [reflexivity|]. right. exact C.
    + right. apply Z.leb_le in Hs. rewrite Hs. auto.
  - destruct (choose_category_of_text t) as (cat' & Ecat' & H).
    rewrite Ecat in Ecat'. injection Ecat' as <-.
    destruct H as [[_ ->] | (before & after & _ & Hgt & _ & _ & ->)].
    + vm_compute. reflexivity.
    + apply category_confidence_range.
      pose proof (category_count_bounds (fst cat) t). lia.
  - destruct (Z.ltb_spec n p) as [H | H].
    + apply sentiment_confidence_range. lia.
    + destruct (Z.ltb_spec p n) as [H' | H'].
      * apply sentiment_confidence_range. lia.
      * vm_compute. reflexivity.
Qed.

(** The spam confidence of a spam verdict grows with the score and is at its
    ceiling from five keywords on. *)
Lemma spam_confidence_grows (a b : Z) :
  (2 <= a <= b)%Z -> (b <= 20)%Z ->
  (fmin (0.5 + float_of_int a * 0.1) 0.95
   <=? fmin (0.5 + float_of_int b * 0.1) 0.95)%float = true /\
  ((5 <= a)%Z -> fmin (0.5 + float_of_int a * 0.1) 0.95 = 0.95%float).
Proof.
  intros Ha Hb.
  assert (F : forallb (fun x =>
                forallb (fun y =>
                  implb ((2 <=? x) && (x <=? y))%Z
                        ((fmin (0.5 + float_of_int x * 0.1) 0.95
                          <=? fmin (0.5 + float_of_int y * 0.1) 0.95)%float))
                  (map Z.of_nat (seq 0 21)))
              (map Z.of_nat (seq 0 21)) = true) by (vm_compute; reflexivity).
  assert (Ia : In a (map Z.of_nat (seq 0 21))).
  { apply in_map_iff. exists (Z.to_nat a). split; [lia|]. apply in_seq. lia. }
  assert (Ib : In b (map Z.of_nat (seq 0 21))).
  { apply in_map_iff. exists (Z.to_nat b). split; [lia|]. apply in_seq. lia. }
  rewrite forallb_forall in F. specialize (F a Ia).
  rewrite forallb_forall in F. specialize (F b Ib).
  split.
  - replace ((2 <=? a) && (a <=? b))%Z with true in F; [exact F|].
    symmetry. apply andb_true_iff. split; apply Z.leb_le; lia.
  - intros H5. revert H5.
    apply (small_int_cases
             (fun a => (5 <= a)%Z ->
                       fmin (0.5 + float_of_int a * 0.1) 0.95 = 0.95%float) 20);
      [|lia].
    do 5 (constructor; [intros H0; lia|]).
    repeat (constructor; [intros _; vm_compute; reflexivity|]).
    constructor.
Qed.

(** X2.  Among spam verdicts the confidence never decreases when the spam
    score increases, whatever the texts and languages, and it equals the
    ceiling 0.95 as soon as the score is at least 5. *)
Theorem spam_confidence_monotone (text1 language1 text2 language2 : str) :
  let score1 := Spec.language_score SPAM_KEYWORDS language1 (lower lower_at text1) in
  let score2 := Spec.language_score SPAM_KEYWORDS language2 (lower lower_at text2) in
  exists r1 r2,
    classify lower_at text1 language1 = Returns r1 /\
    classify lower_at text2 language2 = Returns r2 /\
    (is_spam r1 = true -> (score1 <= score2)%Z ->
     is_spam r2 = true /\
     (spam_confidence r1 <=? spam_confidence r2)%float = true) /\
    ((5 <= score1)%Z -> spam_confidence r1 = 0.95%float).
Proof.
  intros score1 score2.
  destruct (classify_returns lower_at text1 language1) as (c1 & _ & E1).
  destruct (classify_returns lower_at text2 language2) as (c2 & _ & E2).
  eexists. eexists. split; [exact E1|]. split; [exact E2|].
  cbn [is_spam spam_confidence]. fold score1 score2.
  assert (B1 : (0 <= score1 <= 20)%Z) by (apply language_score_bounds; simpl; tauto).
  assert (B2 : (0 <= score2 <= 20)%Z) by (apply language_score_bounds; simpl; tauto).
  split.
  - intros H1 Hle. rewrite H1. apply Z.leb_le in H1.
    assert (H2 : (2 <=? score2)%Z = true) by (apply Z.leb_le; lia).
    rewrite H2. split; [reflexivity|].
    apply spam_confidence_grows; lia.
  - intros H5. rewrite (proj2 (Z.leb_le 2 score1)) by lia.
    apply spam_confidence_grows with (b := score1); lia.
Qed.

(** X3.  The category and its confidence do not depend on the language
    code. *)
Theorem category_ignores_language (text language1 language2 : str) :
  exists r1 r2,
    classify lower_at text language1 = Returns r1 /\
    classify lower_at text language2 = Returns r2 /\
    category r1 = category r2 /\
    category_confidence r1 = category_confidence r2.
Proof.
  destruct (classify_returns lower_at text language1) as (c1 & Ec1 & E1).
  destruct (classify_returns lower_at text language2) as (c2 & Ec2 & E2).
  rewrite Ec1 in Ec2. injection Ec2 as <-.
  eexists. eexists. split; [exact E1|]. split; [exact E2|].
  split; reflexivity.
Qed.

Lemma lookup_unknown_language (table : dict (list str)) (language : str) :
  In table Spec.language_tables ->
  language <> utf8 "vi" -> language <> utf8 "en" ->
  lookup table language = None.
Proof.
  intros Ht Hvi Hen.
  assert (V : utf8 "vi" <> language) by congruence.
  assert (E : utf8 "en" <> language) by congruence.
  apply str_eqb_neq in V. apply str_eqb_neq in E.
  change (utf8 "vi") with [118%N; 105%N] in V.
  change (utf8 "en") with [101%N; 110%N] in E.
  destruct Ht as [<- | [<- | [<- | []]]];
    unfold SPAM_KEYWORDS, POSITIVE_KEYWORDS, NEGATIVE_KEYWORDS; cbn [lookup];
    now rewrite V, E.
Qed.

(** X4.  All language codes other than "vi" and "en" are treated alike: the
    scorer returns the same result for any two of them. *)
Theorem unknown_languages_alike (text language1 language2 : str) :
  language1 <> utf8 "vi" -> language1 <> utf8 "en" ->
  language2 <> utf8 "vi" -> language2 <> utf8 "en" ->
  classify lower_at text language1 = classify lower_at text language2.
Proof.
  intros V1 E1 V2 E2.
  destruct (classify_returns lower_at text language1) as (c1 & Ec1 & R1).
  destruct (classify_returns lower_at text language2) as (c2 & Ec2 & R2).
  rewrite Ec1 in Ec2. injection Ec2 as <-.
  rewrite R1, R2. unfold Spec.language_score, get.
  rewrite !(lookup_unknown_language _ language1) by (simpl; tauto || assumption).
  rewrite !(lookup_unknown_language _ language2) by (simpl; tauto || assumption).
  reflexivity.
Qed.

Lemma present_positive (keywords : list str) (t : str) :
  (1 <= Spec.present keywords t)%Z <->
  exists kw, In kw keywords /\ Spec.Substring kw t.
Proof.
  unfold Spec.present. split.
  - intros H. destruct (filter (fun kw => str_in kw t) keywords) as [|kw l] eqn:F;
      [simpl in H; lia|].
    assert (Hin : In kw (filter (fun kw => str_in kw t) keywords))
      by (rewrite F; now left).
    apply filter_In in Hin. exists kw. split; [tauto|].
    apply str_in_Substring. tauto.
  - intros (kw & Hin & Hsub). apply str_in_Substring in Hsub.
    assert (Hf : In kw (filter (fun kw => str_in kw t) keywords))
      by (apply filter_In; auto).
    destruct (filter (fun kw => str_in kw t) keywords); [destruct Hf|].
    simpl List.length. lia.
Qed.

(** X5.  With the language code "en" the English list is scored twice, so a
    text is flagged as spam as soon as one English spam keyword occurs in
    it. *)
Theorem english_single_keyword_is_spam (text : str) :
  exists r,
    classify lower_at text (utf8 "en") = Returns r /\
    keyword_score SPAM_KEYWORDS (utf8 "en") (lower lower_at text)
      = Returns (2 * Spec.present (get SPAM_KEYWORDS (utf8 "en") [])
                                  (lower lower_at text))%Z /\
    (is_spam r = true <->
     exists kw, In kw (get SPAM_KEYWORDS (utf8 "en") []) /\
                Spec.Substring kw (lower lower_at text)).
Proof.
  destruct (classify_returns lower_at text (utf8 "en")) as (cat & _ & E).
  eexists. split; [exact E|]. cbn [is_spam].
  assert (S : Spec.language_score SPAM_KEYWORDS (utf8 "en") (lower lower_at text)
              = (2 * Spec.present (get SPAM_KEYWORDS (utf8 "en") [])
                                  (lower lower_at text))%Z).
  { unfold Spec.language_score. rewrite hits_present, present_app. lia. }
  split.
  - rewrite keyword_score_returns by (simpl; tauto).
    fold (Spec.language_score SPAM_KEYWORDS (utf8 "en") (lower lower_at text)).
    now rewrite S.
  - rewrite S, Z.leb_le, <- present_positive. lia.
Qed.

Lemma Substring_trans (a b c : str) :
  Spec.Substring a b -> Spec.Substring b c -> Spec.Substring a c.
Proof.
  intros (p1 & s1 & ->) (p2 & s2 & ->).
  exists (p2 ++ p1), (s1 ++ s2). now rewrite <- !app_assoc.
Qed.

Lemma filter_length_mono {A : Type} (p q : A -> bool) (l : list A) :
  (forall x, p x = true -> q x = true) ->
  (List.length (filter p l) <= List.length (filter q l))%nat.
Proof.
  intros H. induction l as [|x l IH]; simpl; [lia|].
  destruct (p x) eqn:P.
  - rewrite (H x P). simpl. lia.
  - destruct (q x); simpl; lia.
Qed.

Lemma hits_mono (keywords : list str) (t t' : str) :
  Spec.Substring t t' -> (hits keywords t <= hits keywords t')%Z.
Proof.
  intros H. rewrite !hits_present. unfold Spec.present.
  apply inj_le. apply filter_length_mono. intros kw Hkw.
  apply str_in_Substring. apply str_in_Substring in Hkw.
  now apply Substring_trans with t.
Qed.

(** X6.  Embedding a text in a longer one never lowers a keyword score: when
    the lower-cased first text occurs inside the lower-cased second one, a
    spam verdict on the first is a spam verdict on the second, for the same
    language. *)
Theorem spam_verdict_survives_extension (text text' language : str) :
  Spec.Substring (lower lower_at text) (lower lower_at text') ->
  exists r r',
    classify lower_at text language = Returns r /\
    classify lower_at text' language = Returns r' /\
    (Spec.language_score SPAM_KEYWORDS language (lower lower_at text)
     <= Spec.language_score SPAM_KEYWORDS language (lower lower_at text'))%Z /\
    (is_spam r = true -> is_spam r' = true).
Proof.
  intros H.
  destruct (classify_returns lower_at text language) as (c & _ & E).
  destruct (classify_returns lower_at text' language) as (c' & _ & E').
  eexists. eexists. split; [exact E|]. split; [exact E'|].
  cbn [is_spam].
  assert (M : (Spec.language_score SPAM_KEYWORDS language (lower lower_at text)
               <= Spec.language_score SPAM_KEYWORDS language (lower lower_at text'))%Z)
    by (apply hits_mono; exact H).
  split; [exact M|]. rewrite !Z.leb_le. lia.
Qed.

End ScorerRanges.

(* ================================================================== *)
(** * Further properties of the Email-System-Server endpoints           *)
(* ================================================================== *)

Section EmailServerTheorems.

Import Server EmailServer.
Variable lower_at : str -> nat -> str.
Variable round : float -> Z -> float.
Variable classifier : option PhoBERTClassifier.
Variable predict_sentiment :
  PhoBERTClassifier -> str -> (str * float * dict float) + str.
Variable round4 : float -> float.
Variable device_of : PhoBERTClassifier -> str.

Lemma truthy_true (s : str) : truthy s = true <-> s <> [].
Proof. destruct s; simpl; split; congruence. Qed.

Lemma winning_confidence_beats_priors (z : Z) :
  (1 <= z <= 20)%Z ->
  (0.34 <? fmin (0.5 + float_of_int z * 0.1) 0.9)%float = true /\
  (0.33 <? fmin (0.5 + float_of_int z * 0.1) 0.9)%float = true.
Proof.
  intros H.
  apply (small_int_cases
           (fun z => (1 <= z)%Z ->
              (0.34 <? fmin (0.5 + float_of_int z * 0.1) 0.9)%float = true /\
              (0.33 <? fmin (0.5 + float_of_int z * 0.1) 0.9)%float = true) 20);
    [|lia|lia].
  constructor; [intros H0; lia|].
  repeat (constructor; [intros _; split; vm_compute; reflexivity|]).
  constructor.
Qed.

(** Overwriting one of the three prior scores by a larger value. *)
Lemma prior_scores_updated (label : str) (v : float) :
  In label Spec.sentiment_labels ->
  (0.34 <? v)%float = true -> (0.33 <? v)%float = true ->
  let scores := setitem [(utf8 "positive", 0.33%float); (utf8 "neutral", 0.34%float);
                         (utf8 "negative", 0.33%float)] label v in
  keys scores = [utf8 "positive"; utf8 "neutral"; utf8 "negative"] /\
  lookup scores label = Some v /\
  (forall other w, other <> label -> lookup scores other = Some w ->
                   (w <? v)%float = true).
Proof.
  intros Hin H34 H33. cbv zeta.
  assert (Hother : forall other w scores,
            lookup scores label = Some v ->
            (forall k x, In (k, x) scores ->
                         k = label \/ x = 0.33%float \/ x = 0.34%float) ->
            other <> label -> lookup scores other = Some w ->
            (w <? v)%float = true).
  { intros other w scores _ Hall Hne L.
    assert (Hw : In (other, w) scores).
    { clear Hall. induction scores as [|[k x] scores IH]; [discriminate L|].
      cbn [lookup] in L. destruct (str_eqb k other) eqn:E.
      - apply str_eqb_eq in E. injection L as ->. subst. now left.
      - right. now apply IH. }
    destruct (Hall other w Hw) as [-> | [-> | ->]];
      [congruence | exact H33 | exact H34]. }
  destruct Hin as [<- | [<- | [<- | []]]];
    (split; [reflexivity|]); (split; [reflexivity|]);
    intros other w; apply Hother; try reflexivity;
    intros k x Hkx; vm_compute in Hkx;
    repeat (destruct Hkx as [Hkx | Hkx];
            [injection Hkx as <- <-; auto|]);
    destruct Hkx.
Qed.

(** X7.  [/sentiment] rejects a request exactly when its text is the empty
    string: the text is not stripped, so a text of white space is analysed.
    Without a loaded model the answer is that of the rule-based scorer for the
    language "vi"; [scores] holds the three labels, and the reported sentiment
    carries the score that is strictly the largest. *)
Theorem sentiment_endpoint_fallback (text : str) :
  (analyze_sentiment lower_at classifier predict_sentiment round4 text
   = Raises (HTTPException 400 (utf8 "Text cannot be empty")) <-> text = []) /\
  ((forall c, classifier = Some c -> models_loaded c = false) -> text <> [] ->
   exists r resp,
     RuleBasedClassifier.classify lower_at text (utf8 "vi") = Returns r /\
     analyze_sentiment lower_at classifier predict_sentiment round4 text
       = Returns resp /\
     resp_sentiment resp = sentiment r /\
     resp_confidence resp = round4 (sentiment_confidence r) /\
     keys (resp_scores resp) = [utf8 "positive"; utf8 "neutral"; utf8 "negative"] /\
     lookup (resp_scores resp) (sentiment r) = Some (sentiment_confidence r) /\
     (forall other w, other <> sentiment r ->
        lookup (resp_scores resp) other = Some w ->
        (w <? sentiment_confidence r)%float = true)).
Proof.
  destruct (classify_returns lower_at text (utf8 "vi")) as (cat & _ & E).
  set (p := Spec.language_score RuleBasedClassifier.POSITIVE_KEYWORDS (utf8 "vi")
                                (lower lower_at text)) in *.
  set (n := Spec.language_score RuleBasedClassifier.NEGATIVE_KEYWORDS (utf8 "vi")
                                (lower lower_at text)) in *.
  assert (Bp : (0 <= p <= 20)%Z) by (apply language_score_bounds; simpl; tauto).
  assert (Bn : (0 <= n <= 20)%Z) by (apply language_score_bounds; simpl; tauto).
  match type of E with _ = Returns ?x => set (r := x) in * end.
  assert (Hlabel : In (sentiment r) Spec.sentiment_labels).
  { cbn [r sentiment]. destruct (n <? p)%Z; [simpl; tauto|].
    destruct (p <? n)%Z; simpl; tauto. }
  assert (Hconf : (0.34 <? sentiment_confidence r)%float = true /\
                  (0.33 <? sentiment_confidence r)%float = true).
  { cbn [r sentiment_confidence].
    destruct (Z.ltb_spec n p); [apply winning_confidence_beats_priors; lia|].
    destruct (Z.ltb_spec p n); [apply winning_confidence_beats_priors; lia|].
    split; vm_compute; reflexivity. }
  destruct (prior_scores_updated (sentiment r) (sentiment_confidence r) Hlabel
              (proj1 Hconf) (proj2 Hconf)) as (Hk & Hl & Ho).
  assert (F : fallback_sentiment lower_at text
              = Returns (sentiment r, sentiment_confidence r,
                         setitem [(utf8 "positive", 0.33%float);
                                  (utf8 "neutral", 0.34%float);
                                  (utf8 "negative", 0.33%float)]
                                 (sentiment r) (sentiment_confidence r))).
  { unfold fallback_sentiment. rewrite E. reflexivity. }
  split.
  - unfold analyze_sentiment. destruct text as [|c text']; cbn [truthy negb].
    + split; reflexivity.
    + split; [|discriminate].
      destruct classifier as [cl|]; [destruct (models_loaded cl)|];
        try (rewrite F; cbn [bind]; discriminate).
      destruct (predict_sentiment cl (c :: text')) as [answer|msg];
        cbn [bind]; discriminate.
  - intros Hun Hne. exists r. eexists. split; [exact E|].
    unfold analyze_sentiment.
    rewrite (proj2 (truthy_true text) Hne). cbn [negb].
    assert (B : match classifier with
                | Some c =>
                    if models_loaded c then
                      match predict_sentiment c text with
                      | inl answer => Returns answer
                      | inr msg => Raises (Exception msg)
                      end
                    else fallback_sentiment lower_at text
                | None => fallback_sentiment lower_at text
                end = fallback_sentiment lower_at text).
    { destruct classifier as [cl|]; [|reflexivity]. now rewrite (Hun cl eq_refl). }
    rewrite B, F. cbn [bind fst snd].
    split; [reflexivity|].
    cbn [resp_sentiment resp_confidence resp_scores].
    repeat split; auto.
Qed.

(** X8.  [/health] reports [model_loaded] exactly when [/classify] and
    [/batch-classify] call the model, and otherwise announces the rule-based
    fallback, which is the backend they then call. *)
Theorem health_reports_the_backend (times : float * float)
        (request : ClassifyRequest) (full_text : str) :
  let health := health_check classifier device_of in
  status health = utf8 "healthy" /\
  (model_loaded health = true /\
   message health = utf8 "PhoBERT loaded" /\
   fst (run_backend lower_at round classifier times request full_text)
   = [ModelCall (subject request) (body request)]
   \/
   model_loaded health = false /\
   message health = utf8 "Using rule-based fallback" /\
   fst (run_backend lower_at round classifier times request full_text)
   = [RuleCall full_text (language request)]).
Proof.
  unfold health_check, run_backend.
  destruct classifier as [c|]; [destruct (models_loaded c)|];
    cbn [status model_loaded message fst]; split; auto.
Qed.

(** X9.  On an e-mail with a non-empty stripped text, [/classify] and
    [/batch-classify] agree, the measured processing time apart: the same
    backend call is made; when [/classify] returns a result the batch entry is
    a success with the same verdict, and conversely, the two results being
    equal when both calls read the same clock; and the batch entry is a
    failure with message [msg] exactly when [/classify] fails with status 500
    and detail "Classification failed: " followed by [msg]. *)
Theorem batch_agrees_with_classify (times : float * float)
        (clock : nat -> float * float) (email : ClassifyRequest) :
  strip (subject email ++ utf8 " " ++ body email) <> [] ->
  fst (batch_classify lower_at round classifier clock [email])
  = fst (classify_email lower_at round classifier times email) /\
  (forall r,
     snd (classify_email lower_at round classifier times email) = Returns r ->
     exists r',
       snd (batch_classify lower_at round classifier clock [email])
       = Returns {| results := [Succeeded r']; total := 1 |} /\
       Spec.same_verdict r r' /\
       (clock 0%nat = times -> r' = r)) /\
  (forall r',
     snd (batch_classify lower_at round classifier clock [email])
     = Returns {| results := [Succeeded r']; total := 1 |} ->
     exists r,
       snd (classify_email lower_at round classifier times email) = Returns r /\
       Spec.same_verdict r r') /\
  (forall msg,
     snd (classify_email lower_at round classifier times email)
     = Raises (HTTPException 500 (utf8 "Classification failed: " ++ msg)) <->
     snd (batch_classify lower_at round classifier clock [email])
     = Returns {| results := [Failed msg]; total := 1 |}).
Proof.
  intros Hne. fold (full_text_of email) in Hne.
  rewrite (batch_classify_small lower_at round classifier clock [email])
    by (simpl; lia).
  cbn [List.length seq combine flat_map map fst snd Z.of_nat]. rewrite app_nil_r.
  unfold classify_email, Spec.item_alone.
  rewrite (proj2 (truthy_true _) Hne). cbn [negb].
  destruct (run_backend_times lower_at round classifier times (clock 0%nat) email
                              (full_text_of email)) as [Hcalls Hsame].
  pose proof (run_backend_outcome lower_at round classifier times email
                                  (full_text_of email)) as Ho.
  pose proof (run_backend_outcome lower_at round classifier (clock 0%nat) email
                                  (full_text_of email)) as Ho'.
  assert (Heq : clock 0%nat = times ->
                run_backend lower_at round classifier (clock 0%nat) email
                            (full_text_of email)
                = run_backend lower_at round classifier times email
                              (full_text_of email)) by (now intros ->).
  destruct (run_backend lower_at round classifier times email (full_text_of email))
    as [calls result].
  destruct (run_backend lower_at round classifier (clock 0%nat) email
                        (full_text_of email)) as [calls' result'].
  cbn [fst snd] in *.
  split; [now symmetry|].
  destruct Ho as [[r0 ->] | [m0 ->]]; destruct Ho' as [[r1 ->] | [m1 ->]];
    try contradiction; cbn [exn_str].
  - split; [|split].
    + intros r [= <-]. exists r1. split; [reflexivity|]. split; [exact Hsame|].
      intros H. specialize (Heq H). now injection Heq.
    + intros r' [= <-]. exists r0. split; [reflexivity | exact Hsame].
    + intros msg. split; discriminate.
  - injection Hsame as <-. split; [|split].
    + intros r H. discriminate H.
    + intros r' H. discriminate H.
    + intros msg. split; intros H.
      * injection H as H. try apply app_inv_head in H. now subst.
      * injection H as <-. reflexivity.
Qed.

(** X10.  [preprocess_text] never hands the tokenizer an empty text nor one
    of more than 5000 characters: the empty text becomes one space, any other
    text is cut to its first 5000 characters, and a text within the limit is
    passed unchanged. *)
Theorem preprocess_text_input {Inputs : Type}
        (tokenizer : str -> Z -> outcome Inputs) (text : str) (max_length : Z) :
  exists prepared,
    preprocess_text tokenizer text max_length = tokenizer prepared max_length /\
    prepared <> [] /\
    (List.length prepared <= 5000)%nat /\
    (text = [] -> prepared = utf8 " ") /\
    (text <> [] -> prepared = firstn 5000 text) /\
    (text <> [] -> (List.length text <= 5000)%nat -> prepared = text).
Proof.
  unfold preprocess_text. eexists. split; [reflexivity|].
  destruct text as [|c text']; cbn [truthy negb].
  - split; [discriminate|]. split; [simpl; lia|].
    split; [reflexivity|]. split; congruence.
  - split; [discriminate|]. split; [apply firstn_le_length|].
    split; [discriminate|]. split; [reflexivity|].
    intros _ H. now apply firstn_all2.
Qed.

End EmailServerTheorems.

(* ================================================================== *)
(** * Blank texts                                                       *)
(* ================================================================== *)

Section BlankTexts.

Import Server.
Variable lower_at : str -> nat -> str.
Variable round : float -> Z -> float.
Variable classifier : option PhoBERTClassifier.

Lemma lstrip_nil (s : str) : lstrip s = [] <-> forallb isspace s = true.
Proof.
  induction s as [|c s IH]; simpl; [tauto|].
  destruct (isspace c); simpl; [exact IH | split; discriminate].
Qed.

Lemma lstrip_keeps_blankness (s : str) :
  forallb isspace (lstrip s) = forallb isspace s.
Proof.
  induction s as [|c s IH]; simpl; [reflexivity|].
  destruct (isspace c) eqn:E; simpl; [exact IH | now rewrite E].
Qed.

Lemma forallb_rev {A : Type} (p : A -> bool) (l : list A) :
  forallb p (rev l) = forallb p l.
Proof.
  induction l as [|x l IH]; simpl; [reflexivity|].
  rewrite forallb_app, IH. simpl. rewrite andb_true_r. apply andb_comm.
Qed.

(** [s.strip()] is empty exactly when [s] consists of white space. *)
Lemma strip_nil (s : str) : strip s = [] <-> forallb isspace s = true.
Proof.
  unfold strip, rstrip.
  rewrite <- (lstrip_keeps_blankness s), <- (forallb_rev isspace (lstrip s)).
  rewrite <- lstrip_nil. split; intros H.
  - apply (f_equal (@rev N)) in H. now rewrite rev_involutive in H.
  - now rewrite H.
Qed.

(** X11.  [/classify] rejects an e-mail as empty exactly when its subject and
    its body consist of white-space characters only (both may be empty). *)
Theorem classify_email_rejects_blank_only (times : float * float)
        (request : ClassifyRequest) :
  snd (classify_email lower_at round classifier times request)
  = Raises Spec.EmptyInputError
  <-> forallb isspace (subject request) && forallb isspace (body request) = true.
Proof.
  assert (B : forallb isspace (subject request ++ utf8 " " ++ body request)
              = forallb isspace (subject request) && forallb isspace (body request)).
  { rewrite !forallb_app. reflexivity. }
  rewrite <- B, <- strip_nil. fold (full_text_of request).
  unfold classify_email.
  destruct (full_text_of request) as [|c t] eqn:F; cbn [truthy negb].
  - cbn [snd]. split; reflexivity.
  - rewrite <- F.
    destruct (run_backend lower_at round classifier times request
                          (full_text_of request)) as [calls result] eqn:R.
    pose proof (run_backend_outcome lower_at round classifier times request
                                    (full_text_of request)) as Ho.
    rewrite R in Ho. cbn [snd] in *. rewrite F.
    destruct Ho as [[r ->] | [msg ->]]; split; discriminate.
Qed.

End BlankTexts.

(* ================================================================== *)
(** * Further properties of PhoBERT-Service                             *)
(* ================================================================== *)

Section ServiceTheorems.

Import PhoBERTService.
Variable Inputs : Type.

Lemma with_overall_fields (result : Classification) (confidences : list float) :
  is_spam (with_overall result confidences) = is_spam result /\
  spam_score (with_overall result confidences) = spam_score result /\
  sentiment (with_overall result confidences) = sentiment result /\
  sentiment_score (with_overall result confidences) = sentiment_score result.
Proof. destruct confidences; repeat split; reflexivity. Qed.

Lemma classify_axes (self : PhoBERTClassifier Inputs) (text : str) :
  is_loaded self = true ->
  is_spam (classify self text) = sr_is_spam (detect_spam self text) /\
  spam_score (classify self text) = sr_spam_score (detect_spam self text) /\
  sentiment (classify self text) = se_sentiment (analyze_sentiment self text) /\
  sentiment_score (classify self text) = se_score (analyze_sentiment self text).
Proof.
  intros L. unfold classify, detect_spam, analyze_sentiment, _predict.
  rewrite L. cbn [negb].
  destruct (_preprocess self text) as [inputs|e]; cbn [bind].
  - destruct (spam_model self) as [m1|];
      destruct (sentiment_model self) as [m2|];
      destruct (category_model self) as [m|];
      try destruct (m1 inputs) as [[? ?]|?];
      try destruct (m2 inputs) as [[? ?]|?];
      try destruct (m inputs) as [[? ?]|?];
      cbn [app with_overall is_spam spam_score sentiment sentiment_score
           sr_is_spam sr_spam_score se_sentiment se_score];
      repeat split; reflexivity.
  - destruct (spam_model self); destruct (sentiment_model self);
      repeat split; reflexivity.
Qed.

(** X12.  On a loaded classifier the three operations agree: the spam
    fields of [classify] are those of [detect_spam] and its sentiment fields
    those of [analyze_sentiment] on the same text, whichever models are
    present and whether or not inference fails. *)
Theorem classify_agrees_with_single_axes (self : PhoBERTClassifier Inputs) (text : str) :
  is_loaded self = true ->
  is_spam (classify self text) = sr_is_spam (detect_spam self text) /\
  spam_score (classify self text) = sr_spam_score (detect_spam self text) /\
  sentiment (classify self text) = se_sentiment (analyze_sentiment self text) /\
  sentiment_score (classify self text) = se_score (analyze_sentiment self text).
Proof. exact (classify_axes self text). Qed.

End ServiceTheorems.

Section LoaderTheorems.

Import PhoBERTService Loader.
Variable Inputs : Type.
Variable TRANSFORMERS_AVAILABLE : bool.
Variable path_exists : str -> bool.
Variable tokenizer_from_pretrained : str -> outcome (str -> outcome Inputs).
Variable model_from_pretrained : str -> outcome (Model Inputs).
Variable move_and_eval : Model Inputs -> outcome unit.
Variable model_path : str.

Lemma if_true {A : Type} (b : bool) (x y : A) :
  b = true -> (if b then x else y) = x.
Proof. intros ->. reflexivity. Qed.

(** What a loading block leaves behind, by what happens in it. *)
Lemma load_if_exists_facts (name : str) :
  let block := load_if_exists path_exists model_from_pretrained move_and_eval
                              model_path name in
  (fst block <> None -> path_exists (path_join model_path name) = true) /\
  (snd block = true <->
   block_raises path_exists model_from_pretrained move_and_eval model_path name) /\
  (snd block = false <->
   block_completes path_exists model_from_pretrained move_and_eval model_path name) /\
  (snd block = false ->
   (fst block <> None <-> path_exists (path_join model_path name) = true)).
Proof.
  unfold load_if_exists, block_raises, block_completes. cbv zeta.
  destruct (path_exists (path_join model_path name)) eqn:P.
  - destruct (model_from_pretrained (path_join model_path name)) as [model|e] eqn:F.
    + destruct (move_and_eval model) as [u|e] eqn:M; cbn [fst snd].
      * split; [reflexivity|]. split; [|split].
        -- split; [discriminate|].
           intros (_ & [(e & H) | (m & e & [= <-] & H)]); congruence.
        -- split; [intros _; right; eauto | reflexivity].
        -- intros _. split; [reflexivity | discriminate].
      * split; [reflexivity|]. split; [|split].
        -- split; [intros _; split; [reflexivity | right; eauto] | reflexivity].
        -- split; [discriminate|].
           intros [H | (m & u & [= <-] & H)]; congruence.
        -- discriminate.
    + cbn [fst snd]. split; [congruence|]. split; [|split].
      * split; [intros _; split; [reflexivity | left; eauto] | reflexivity].
      * split; [discriminate|]. intros [H | (m & u & H & _)]; congruence.
      * discriminate.
  - cbn [fst snd]. split; [congruence|]. split; [|split].
    + split; [discriminate | intros (H & _); discriminate H].
    + split; [now left | reflexivity].
    + intros _. split; [congruence | discriminate].
Qed.

(** The state of a freshly constructed classifier after [_load_models]. *)
Lemma load_models_fresh :
  TRANSFORMERS_AVAILABLE = true ->
  let block := load_if_exists path_exists model_from_pretrained move_and_eval
                              model_path in
  let c := _load_models TRANSFORMERS_AVAILABLE path_exists tokenizer_from_pretrained
                        model_from_pretrained move_and_eval model_path
                        {| is_loaded := false; tokenizer := None; spam_model := None;
                           sentiment_model := None; category_model := None |} in
  (is_loaded c = true <->
   (exists tok, load_tokenizer path_exists tokenizer_from_pretrained model_path
                = Returns tok) /\
   snd (block (utf8 "spam_model")) = false /\
   snd (block (utf8 "sentiment_model")) = false /\
   snd (block (utf8 "category_model")) = false /\
   (fst (block (utf8 "spam_model")) <> None \/
    fst (block (utf8 "sentiment_model")) <> None \/
    fst (block (utf8 "category_model")) <> None)) /\
  (is_loaded c = true ->
   tokenizer c <> None /\
   spam_model c = fst (block (utf8 "spam_model")) /\
   sentiment_model c = fst (block (utf8 "sentiment_model")) /\
   category_model c = fst (block (utf8 "category_model"))) /\
  (spam_model c <> None -> fst (block (utf8 "spam_model")) <> None) /\
  (sentiment_model c <> None -> fst (block (utf8 "sentiment_model")) <> None) /\
  (category_model c <> None -> fst (block (utf8 "category_model")) <> None).
Proof.
  intros TA. cbv zeta. unfold _load_models. rewrite TA. cbn [negb].
  destruct (load_tokenizer path_exists tokenizer_from_pretrained model_path)
    as [tok|e].
  2:{ cbn [is_loaded tokenizer spam_model sentiment_model category_model].
      split; [split; [discriminate | intros ((tok & H) & _); discriminate H]|].
      repeat split; intros; congruence. }
  destruct (load_if_exists path_exists model_from_pretrained move_and_eval
                           model_path (utf8 "spam_model")) as [spam r1].
  destruct (load_if_exists path_exists model_from_pretrained move_and_eval
                           model_path (utf8 "sentiment_model")) as [senti r2].
  destruct (load_if_exists path_exists model_from_pretrained move_and_eval
                           model_path (utf8 "category_model")) as [cat r3].
  cbn [fst snd].
  destruct r1;
    [cbn [is_loaded tokenizer spam_model sentiment_model category_model];
     split; [split; [discriminate | intros (_ & H & _); discriminate H]|];
     destruct spam; cbn [assigned]; repeat split; intros; congruence|].
  destruct r2;
    [cbn [is_loaded tokenizer spam_model sentiment_model category_model];
     split; [split; [discriminate | intros (_ & _ & H & _); discriminate H]|];
     destruct spam, senti; cbn [assigned]; repeat split; intros; congruence|].
  destruct r3;
    [cbn [is_loaded tokenizer spam_model sentiment_model category_model];
     split; [split; [discriminate | intros (_ & _ & _ & H & _); discriminate H]|];
     destruct spam, senti, cat; cbn [assigned]; repeat split; intros; congruence|].
  cbn [is_loaded tokenizer spam_model sentiment_model category_model].
  destruct spam, senti, cat; cbn [assigned is_some orb];
    (split;
     [split;
      [intros L;
       first [discriminate L
             | split; [eauto|]; repeat split;
               solve [left; discriminate | right; left; discriminate
                     | right; right; discriminate]]
      | intros (_ & _ & _ & _ & [H | [H | H]]); congruence]
     | repeat split; intros; congruence]).
Qed.

(** X13.  Constructing the classifier raises when the imports failed.
    Otherwise it returns a classifier in which a model is present only if its
    directory exists, and which is marked loaded only if the tokenizer and at
    least one of the three models are present; with none of the three
    directories it is not loaded. *)
Theorem constructor_loads_consistently :
  (TRANSFORMERS_AVAILABLE = false ->
   exists e, __init__ TRANSFORMERS_AVAILABLE path_exists tokenizer_from_pretrained
              model_from_pretrained move_and_eval model_path = Raises e) /\
  (TRANSFORMERS_AVAILABLE = true ->
   exists c,
     __init__ TRANSFORMERS_AVAILABLE path_exists tokenizer_from_pretrained
              model_from_pretrained move_and_eval model_path = Returns c /\
     (is_loaded c = true ->
      tokenizer c <> None /\
      (spam_model c <> None \/ sentiment_model c <> None \/ category_model c <> None)) /\
     (spam_model c <> None ->
      path_exists (path_join model_path (utf8 "spam_model")) = true) /\
     (sentiment_model c <> None ->
      path_exists (path_join model_path (utf8 "sentiment_model")) = true) /\
     (category_model c <> None ->
      path_exists (path_join model_path (utf8 "category_model")) = true) /\
     (path_exists (path_join model_path (utf8 "spam_model")) = false ->
      path_exists (path_join model_path (utf8 "sentiment_model")) = false ->
      path_exists (path_join model_path (utf8 "category_model")) = false ->
      is_loaded c = false)).
Proof.
  split; intros TA.
  - unfold __init__. rewrite TA. eauto.
  - destruct (load_models_fresh TA) as (Hiff & Hload & H2 & H3 & H4).
    pose proof (proj1 (load_if_exists_facts (utf8 "spam_model"))) as P2.
    pose proof (proj1 (load_if_exists_facts (utf8 "sentiment_model"))) as P3.
    pose proof (proj1 (load_if_exists_facts (utf8 "category_model"))) as P4.
    cbv zeta in *.
    eexists. split; [unfold __init__; rewrite (if_true _ _ _ TA); reflexivity|].
    split; [|split; [|split; [|split]]]; auto.
    + intros L. destruct (Hload L) as (Ht & E2 & E3 & E4).
      split; [exact Ht|]. rewrite E2, E3, E4. now apply (proj1 Hiff L).
    + intros Q2 Q3 Q4.
      match goal with |- is_loaded ?c = false => destruct (is_loaded c) eqn:L end;
        [|reflexivity].
      destruct (proj1 Hiff eq_refl) as (_ & _ & _ & _ & [M | [M | M]]);
        [specialize (P2 M) | specialize (P3 M) | specialize (P4 M)]; congruence.
Qed.

(** X14.  [get_classifier] always returns a classifier whose [is_loaded]
    holds.  It is the mock classifier when the imports failed, when loading
    the tokenizer or one of the model blocks raised, or when none of the three
    model directories exists.  Otherwise, that is when the tokenizer loads,
    every block completes and some directory exists, it is a real classifier
    that has its tokenizer and exactly the models whose directories exist. *)
Theorem get_classifier_is_loaded :
  let raises := block_raises path_exists model_from_pretrained move_and_eval
                             model_path in
  let completes := block_completes path_exists model_from_pretrained move_and_eval
                                   model_path in
  let present name := path_exists (path_join model_path name) = true in
  exists c,
    get_classifier TRANSFORMERS_AVAILABLE path_exists tokenizer_from_pretrained
                   model_from_pretrained move_and_eval model_path = Returns c /\
    loaded c = true /\
    (TRANSFORMERS_AVAILABLE = false \/
     (exists e, load_tokenizer path_exists tokenizer_from_pretrained model_path
                = Raises e) \/
     raises (utf8 "spam_model") \/ raises (utf8 "sentiment_model") \/
     raises (utf8 "category_model") \/
     (~ present (utf8 "spam_model") /\ ~ present (utf8 "sentiment_model") /\
      ~ present (utf8 "category_model")) ->
     c = Mock) /\
    (TRANSFORMERS_AVAILABLE = true ->
     (exists tok, load_tokenizer path_exists tokenizer_from_pretrained model_path
                  = Returns tok) ->
     completes (utf8 "spam_model") -> completes (utf8 "sentiment_model") ->
     completes (utf8 "category_model") ->
     present (utf8 "spam_model") \/ present (utf8 "sentiment_model")
     \/ present (utf8 "category_model") ->
     exists real,
       c = Real real /\ is_loaded real = true /\ tokenizer real <> None /\
       (spam_model real <> None <-> present (utf8 "spam_model")) /\
       (sentiment_model real <> None <-> present (utf8 "sentiment_model")) /\
       (category_model real <> None <-> present (utf8 "category_model"))).
Proof.
  cbv zeta. unfold get_classifier.
  destruct (Bool.bool_dec TRANSFORMERS_AVAILABLE true) as [TA | TA].
  2:{ apply Bool.not_true_is_false in TA. rewrite TA.
      exists Mock. split; [reflexivity|]. split; [reflexivity|].
      split; [reflexivity | intros H; discriminate H]. }
  destruct (load_models_fresh TA) as (Hiff & Hload & _).
  destruct (load_if_exists_facts (utf8 "spam_model")) as (A1 & B1 & C1 & D1).
  destruct (load_if_exists_facts (utf8 "sentiment_model")) as (A2 & B2 & C2 & D2).
  destruct (load_if_exists_facts (utf8 "category_model")) as (A3 & B3 & C3 & D3).
  cbv zeta in *.
  rewrite (if_true _ _ _ TA). unfold __init__.
  rewrite (if_true _ _ _ TA). cbn [bind].
  match goal with |- context [is_loaded ?c] => destruct (is_loaded c) eqn:L end.
  - destruct (proj1 Hiff eq_refl) as ((tok & Et) & S1 & S2 & S3 & Hsome).
    destruct (Hload eq_refl) as (Ht & E1 & E2 & E3).
    eexists. split; [reflexivity|]. split; [exact L|]. split.
    + intros [H | [(e & H) | [H | [H | [H | (N1 & N2 & N3)]]]]].
      * congruence.
      * congruence.
      * apply B1 in H. congruence.
      * apply B2 in H. congruence.
      * apply B3 in H. congruence.
      * destruct Hsome as [M | [M | M]];
          [destruct (N1 (A1 M)) | destruct (N2 (A2 M)) | destruct (N3 (A3 M))].
    + intros _ _ _ _ _ _. eexists. split; [reflexivity|].
      split; [exact L|]. split; [exact Ht|].
      rewrite E1, E2, E3. auto.
  - exists Mock. split; [reflexivity|]. split; [reflexivity|].
    split; [reflexivity|].
    intros _ Htok K1 K2 K3 Hp. exfalso.
    apply C1 in K1. apply C2 in K2. apply C3 in K3.
    assert (Hl : false = true); [|discriminate Hl].
    apply (proj2 Hiff). split; [exact Htok|]. repeat (split; [assumption|]).
    destruct Hp as [P | [P | P]];
      [left; now apply D1 | right; left; now apply D2 | right; right; now apply D3].
Qed.

End LoaderTheorems.

Section MockTheorems.

Import PhoBERTService.
Variable lower_at : str -> nat -> str.

Lemma any_in_Substring (words : list str) (t : str) :
  MockClassifier.any_in words t = true <->
  exists word, In word words /\ Spec.Substring word t.
Proof.
  unfold MockClassifier.any_in. rewrite existsb_exists.
  split; intros (w & Hin & H); exists w; split; auto; now apply str_in_Substring.
Qed.

(** X15.  The mock classifier only answers labels of the schema: its category
    is one of the five folder categories, never "spam", and its sentiment one
    of the three sentiment labels; [detect_spam] and [analyze_sentiment]
    repeat the verdicts of [classify]. *)
Theorem mock_labels_in_schema (text : str) :
  In (category (MockClassifier.classify lower_at text)) Spec.category_labels /\
  category (MockClassifier.classify lower_at text) <> utf8 "spam" /\
  In (sentiment (MockClassifier.classify lower_at text)) Spec.sentiment_labels /\
  sr_is_spam (MockClassifier.detect_spam lower_at text)
  = is_spam (MockClassifier.classify lower_at text) /\
  se_sentiment (MockClassifier.analyze_sentiment lower_at text)
  = sentiment (MockClassifier.classify lower_at text).
Proof.
  unfold MockClassifier.detect_spam, MockClassifier.analyze_sentiment,
    MockClassifier.classify.
  cbn [category sentiment is_spam sr_is_spam se_sentiment].
  set (t := lower lower_at text).
  destruct (MockClassifier.any_in MockClassifier.social_words t);
    destruct (MockClassifier.any_in MockClassifier.promotions_words t);
    destruct (MockClassifier.any_in MockClassifier.updates_words t);
    destruct (MockClassifier.any_in MockClassifier.important_words t);
    destruct (MockClassifier.any_in MockClassifier.positive_words t);
    destruct (MockClassifier.any_in MockClassifier.negative_words t);
    (split; [simpl; tauto|]); (split; [discriminate|]);
    (split; [simpl; tauto|]); split; reflexivity.
Qed.

(** X16.  The decisions of the mock classifier, by the words that occur in
    the lower-cased text: it is spam exactly when a spam word occurs; a
    positive word wins over negative ones; and the categories are tried in the
    order social, promotions, updates, important, so that a social word
    decides whatever else occurs and "important" is answered only when no
    word of the three other lists occurs. *)
Theorem mock_decisions (text : str) :
  let t := lower lower_at text in
  let r := MockClassifier.classify lower_at text in
  let occurs words := exists word, In word words /\ Spec.Substring word t in
  (is_spam r = true <-> occurs MockClassifier.spam_words) /\
  (sentiment r = utf8 "positive" <-> occurs MockClassifier.positive_words) /\
  (sentiment r = utf8 "negative" <->
   ~ occurs MockClassifier.positive_words /\ occurs MockClassifier.negative_words) /\
  (category r = utf8 "social" <-> occurs MockClassifier.social_words) /\
  (category r = utf8 "promotions" <->
   ~ occurs MockClassifier.social_words /\ occurs MockClassifier.promotions_words) /\
  (category r = utf8 "updates" <->
   ~ occurs MockClassifier.social_words /\ ~ occurs MockClassifier.promotions_words /\
   occurs MockClassifier.updates_words) /\
  (category r = utf8 "important" <->
   ~ occurs MockClassifier.social_words /\ ~ occurs MockClassifier.promotions_words /\
   ~ occurs MockClassifier.updates_words /\ occurs MockClassifier.important_words).
Proof.
  cbv zeta. unfold MockClassifier.classify.
  cbn [category sentiment is_spam].
  set (t := lower lower_at text).
  rewrite <- !any_in_Substring.
  destruct (MockClassifier.any_in MockClassifier.spam_words t);
    destruct (MockClassifier.any_in MockClassifier.social_words t);
    destruct (MockClassifier.any_in MockClassifier.promotions_words t);
    destruct (MockClassifier.any_in MockClassifier.updates_words t);
    destruct (MockClassifier.any_in MockClassifier.important_words t);
    destruct (MockClassifier.any_in MockClassifier.positive_words t);
    destruct (MockClassifier.any_in MockClassifier.negative_words t);
    repeat split; intros; try discriminate; try reflexivity;
    repeat match goal with H : _ /\ _ |- _ => destruct H end;
    try discriminate; try congruence.
Qed.

End MockTheorems.

Section AppTheorems.

Import PhoBERTService App.
Variable Inputs : Type.
Variable classifier : option (PhoBERTClassifier Inputs).

Lemma app_unavailable :
  model_loaded (health_check classifier) = false ->
  (forall request, classify_email classifier request = Raises model_not_loaded) /\
  (forall text, detect_spam classifier text = Raises model_not_loaded) /\
  (forall text, analyze_sentiment classifier text = Raises model_not_loaded).
Proof.
  unfold health_check, classify_email, detect_spam, analyze_sentiment.
  cbn [model_loaded]. destruct classifier as [c|]; [|auto].
  intros ->. auto.
Qed.

Lemma blank_fmt (o : option str) :
  forallb isspace (fmt o) = true <-> exists s, o = Some s /\ forallb isspace s = true.
Proof.
  destruct o as [s|]; cbn [fmt].
  - split; [eauto | intros (s' & [= <-] & H); exact H].
  - split; [vm_compute; discriminate | intros (s' & E & _); discriminate E].
Qed.

(** X17.  The answers of [/classify] of PhoBERT-Service.  It answers 503
    exactly when [/health] reports no loaded model, whatever the request.
    With a loaded model it answers 400 exactly when [text] is missing or
    empty and subject and body are both given and consist of white space (a
    missing subject or body prints as "None" and is classified); every other
    request is answered with the classification of a non-empty text, which is
    [text] itself when that is given and not empty: status 500 never
    occurs. *)
Theorem app_classify_answers (request : ClassifyRequest) :
  (classify_email classifier request = Raises model_not_loaded <->
   model_loaded (health_check classifier) = false) /\
  (forall c, classifier = Some c -> is_loaded c = true ->
     (classify_email classifier request = Raises no_text <->
      (text request = None \/ text request = Some []) /\
      exists s b, subject request = Some s /\ body request = Some b /\
                  forallb isspace s && forallb isspace b = true) /\
     (classify_email classifier request = Raises no_text \/
      exists t, t <> [] /\
                classify_email classifier request = Returns (classify c t) /\
                (forall t', text request = Some t' -> t' <> [] -> t = t'))).
Proof.
  split.
  - split.
    + unfold classify_email, health_check. cbn [model_loaded].
      destruct classifier as [c|]; [|reflexivity].
      destruct (is_loaded c); cbn [negb]; [|reflexivity].
      destruct (truthy _); cbn [negb]; discriminate.
    + intros H. now apply app_unavailable.
  - intros c -> L. unfold classify_email. rewrite L. cbn [negb].
    set (combined := strip (fmt (subject request) ++ utf8 " " ++ fmt (body request))).
    assert (B : combined = [] <->
                exists s b, subject request = Some s /\ body request = Some b /\
                            forallb isspace s && forallb isspace b = true).
    { unfold combined. rewrite strip_nil, !forallb_app.
      change (forallb isspace (utf8 " ")) with true. rewrite andb_true_l.
      rewrite andb_true_iff, !blank_fmt. split.
      - intros ((s & -> & Hs) & (b & -> & Hb)). exists s, b.
        now rewrite Hs, Hb.
      - intros (s & b & -> & -> & H). apply andb_true_iff in H. destruct H.
        split; eauto. }
    destruct (text request) as [[|ch t0]|] eqn:T; cbn [or_else].
    + destruct combined as [|ch t1] eqn:C; cbn [truthy negb].
      * split; [split; [intros _; split; [auto | now apply B] | reflexivity]|].
        now left.
      * split.
        -- split; [discriminate|]. intros (_ & H). apply B in H. discriminate H.
        -- right. exists (ch :: t1). split; [discriminate|].
           split; [reflexivity|]. intros t' [= <-] H. congruence.
    + cbn [truthy negb]. split.
      * split; [discriminate|]. intros ([H | H] & _); discriminate H.
      * right. exists (ch :: t0). split; [discriminate|].
        split; [reflexivity|]. intros t' [= <-] _. reflexivity.
    + destruct combined as [|ch t1] eqn:C; cbn [truthy negb].
      * split; [split; [intros _; split; [auto | now apply B] | reflexivity]|].
        now left.
      * split.
        -- split; [discriminate|]. intros (_ & H). apply B in H. discriminate H.
        -- right. exists (ch :: t1). split; [discriminate|].
           split; [reflexivity|]. intros t' H. discriminate H.
Qed.

(** X18.  With a loaded model the three endpoints agree on a non-empty text
    sent in the [text] field: [/spam] answers the spam fields and
    [/sentiment] the sentiment fields of the answer of [/classify]. *)
Theorem app_endpoints_agree (c : PhoBERTClassifier Inputs) (request : ClassifyRequest)
        (t : str) :
  classifier = Some c -> is_loaded c = true ->
  text request = Some t -> t <> [] ->
  exists r s a,
    classify_email classifier request = Returns r /\
    detect_spam classifier t = Returns s /\
    analyze_sentiment classifier t = Returns a /\
    is_spam r = sr_is_spam s /\ spam_score r = sr_spam_score s /\
    sentiment r = se_sentiment a /\ sentiment_score r = se_score a.
Proof.
  intros -> L T Hne.
  unfold classify_email, detect_spam, analyze_sentiment.
  rewrite L, T. cbn [negb].
  destruct t as [|ch t0]; [congruence|]. cbn [or_else truthy negb].
  do 3 eexists. split; [reflexivity|]. split; [reflexivity|]. split; [reflexivity|].
  now apply classify_axes.
Qed.

End AppTheorems.

(** X19.  When the imports of transformers and torch failed, constructing the
    classifier raises, start-up leaves the service without a classifier, and
    every request to [/classify], [/spam] and [/sentiment] is answered 503
    while [/health] reports that no model is loaded.  The same holds, with a
    constructed classifier, when none of the three model directories
    exists. *)
Theorem service_unavailable_without_models
        (Inputs : Type) (TRANSFORMERS_AVAILABLE : bool) (path_exists : str -> bool)
        (tokenizer_from_pretrained : str -> outcome (str -> outcome Inputs))
        (model_from_pretrained : str -> outcome (PhoBERTService.Model Inputs))
        (move_and_eval : PhoBERTService.Model Inputs -> outcome unit)
        (model_path : str) :
  let classifier :=
    App.startup_event
      (Loader.__init__ TRANSFORMERS_AVAILABLE path_exists tokenizer_from_pretrained
                       model_from_pretrained move_and_eval model_path) in
  (TRANSFORMERS_AVAILABLE = false -> classifier = None) /\
  (TRANSFORMERS_AVAILABLE = false \/
   (path_exists (Loader.path_join model_path (utf8 "spam_model")) = false /\
    path_exists (Loader.path_join model_path (utf8 "sentiment_model")) = false /\
    path_exists (Loader.path_join model_path (utf8 "category_model")) = false) ->
   App.model_loaded (App.health_check classifier) = false /\
   (forall request,
      App.classify_email classifier request = Raises App.model_not_loaded) /\
   (forall text, App.detect_spam classifier text = Raises App.model_not_loaded) /\
   (forall text, App.analyze_sentiment classifier text = Raises App.model_not_loaded)).
Proof.
  cbv zeta. split.
  - intros TA. unfold Loader.__init__. rewrite TA. reflexivity.
  - intros H.
    assert (Hh : App.model_loaded
                   (App.health_check
                      (App.startup_event
                         (Loader.__init__ TRANSFORMERS_AVAILABLE path_exists
                            tokenizer_from_pretrained model_from_pretrained
                            move_and_eval model_path))) = false).
    { destruct (Bool.bool_dec TRANSFORMERS_AVAILABLE true) as [TA | TA].
      - destruct H as [H | (P1 & P2 & P3)]; [congruence|].
        pose proof (load_models_fresh Inputs TRANSFORMERS_AVAILABLE path_exists
                      tokenizer_from_pretrained model_from_pretrained move_and_eval
                      model_path TA) as (Hiff & _).
        pose proof (proj1 (load_if_exists_facts Inputs path_exists
                             model_from_pretrained move_and_eval model_path
                             (utf8 "spam_model"))) as H2.
        pose proof (proj1 (load_if_exists_facts Inputs path_exists
                             model_from_pretrained move_and_eval model_path
                             (utf8 "sentiment_model"))) as H3.
        pose proof (proj1 (load_if_exists_facts Inputs path_exists
                             model_from_pretrained move_and_eval model_path
                             (utf8 "category_model"))) as H4.
        cbv zeta in Hiff, H2, H3, H4.
        unfold Loader.__init__. rewrite (if_true _ _ _ TA).
        cbn [App.startup_event App.health_check App.model_loaded].
        match goal with |- ?x = false => destruct x eqn:L end; [|reflexivity].
        destruct (proj1 Hiff eq_refl) as (_ & _ & _ & _ & [M | [M | M]]);
          [specialize (H2 M) | specialize (H3 M) | specialize (H4 M)]; congruence.
      - apply Bool.not_true_is_false in TA.
        unfold Loader.__init__. rewrite TA. reflexivity. }
    split; [exact Hh|]. now apply app_unavailable.
Qed.

(* ================================================================== *)
(** * The further properties at concrete inputs                         *)
(* ================================================================== *)

Section MoreInstances.

Import RuleBasedClassifier Server.

Lemma unknown_languages_alike_witness :
  classify ascii_lower_at (utf8 "You are a WINNER, thank you") (utf8 "fr")
  = classify ascii_lower_at (utf8 "You are a WINNER, thank you") (utf8 "de").
Proof.
  apply unknown_languages_alike; vm_compute; discriminate.
Defined.

Lemma spam_verdict_survives_extension_witness :
  exists r r',
    classify ascii_lower_at (utf8 "winner of the lottery") (utf8 "vi") = Returns r /\
    classify ascii_lower_at (utf8 "Dear WINNER OF THE LOTTERY, hello") (utf8 "vi")
      = Returns r' /\
    (Spec.language_score SPAM_KEYWORDS (utf8 "vi")
       (lower ascii_lower_at (utf8 "winner of the lottery"))
     <= Spec.language_score SPAM_KEYWORDS (utf8 "vi")
          (lower ascii_lower_at (utf8 "Dear WINNER OF THE LOTTERY, hello")))%Z /\
    (is_spam r = true -> is_spam r' = true).
Proof.
  apply spam_verdict_survives_extension.
  exists (utf8 "dear "), (utf8 ", hello"). vm_compute. reflexivity.
Defined.

Lemma batch_agrees_with_classify_witness :
  fst (batch_classify ascii_lower_at Spec.exact_round (Some Spec.flaky_classifier)
                      Spec.sample_clock [Spec.email "hello" "one"])
  = fst (classify_email ascii_lower_at Spec.exact_round (Some Spec.flaky_classifier)
                        (Spec.sample_clock 0) (Spec.email "hello" "one")) /\
  snd (classify_email ascii_lower_at Spec.exact_round (Some Spec.flaky_classifier)
                      (Spec.sample_clock 0) (Spec.email "hello" "one"))
  = Returns (Spec.flaky_answer 250) /\
  snd (batch_classify ascii_lower_at Spec.exact_round (Some Spec.flaky_classifier)
                      Spec.sample_clock [Spec.email "hello" "one"])
  = Returns {| results := [Succeeded (Spec.flaky_answer 250)]; total := 1 |}.
Proof.
  assert (H : strip (subject (Spec.email "hello" "one") ++ utf8 " "
                     ++ body (Spec.email "hello" "one")) <> [])
    by (vm_compute; discriminate).
  assert (E : snd (classify_email ascii_lower_at Spec.exact_round
                     (Some Spec.flaky_classifier) (Spec.sample_clock 0)
                     (Spec.email "hello" "one"))
              = Returns (Spec.flaky_answer 250))
    by (vm_compute; reflexivity).
  destruct (batch_agrees_with_classify ascii_lower_at Spec.exact_round
              (Some Spec.flaky_classifier) (Spec.sample_clock 0) Spec.sample_clock
              (Spec.email "hello" "one") H) as (Hc & Hr & _).
  split; [exact Hc|]. split; [exact E|].
  destruct (Hr (Spec.flaky_answer 250) E) as (r' & E' & _ & Heq).
  rewrite E', (Heq eq_refl). reflexivity.
Defined.

Lemma classify_agrees_with_single_axes_witness :
  (PhoBERTService.is_spam
     (PhoBERTService.classify Spec.three_model_classifier (utf8 "hello"))
   = PhoBERTService.sr_is_spam
       (PhoBERTService.detect_spam Spec.three_model_classifier (utf8 "hello")) /\
   PhoBERTService.spam_score
     (PhoBERTService.classify Spec.three_model_classifier (utf8 "hello"))
   = PhoBERTService.sr_spam_score
       (PhoBERTService.detect_spam Spec.three_model_classifier (utf8 "hello")) /\
   PhoBERTService.sentiment
     (PhoBERTService.classify Spec.three_model_classifier (utf8 "hello"))
   = PhoBERTService.se_sentiment
       (PhoBERTService.analyze_sentiment Spec.three_model_classifier (utf8 "hello")) /\
   PhoBERTService.sentiment_score
     (PhoBERTService.classify Spec.three_model_classifier (utf8 "hello"))
   = PhoBERTService.se_score
       (PhoBERTService.analyze_sentiment Spec.three_model_classifier (utf8 "hello"))) /\
  PhoBERTService.sr_is_spam
    (PhoBERTService.detect_spam Spec.three_model_classifier (utf8 "hello")) = true /\
  PhoBERTService.sr_spam_score
    (PhoBERTService.detect_spam Spec.three_model_classifier (utf8 "hello"))
  = 0.9%float /\
  PhoBERTService.se_sentiment
    (PhoBERTService.analyze_sentiment Spec.three_model_classifier (utf8 "hello"))
  = utf8 "positive" /\
  PhoBERTService.se_score
    (PhoBERTService.analyze_sentiment Spec.three_model_classifier (utf8 "hello"))
  = 0.8%float.
Proof.
  split; [apply classify_agrees_with_single_axes; reflexivity|].
  repeat split; vm_compute; reflexivity.
Defined.

Lemma app_endpoints_agree_witness :
  exists r s a,
    App.classify_email (Some Spec.three_model_classifier)
      {| App.subject := None; App.body := None; App.text := Some (utf8 "hello") |}
    = Returns r /\
    App.detect_spam (Some Spec.three_model_classifier) (utf8 "hello") = Returns s /\
    App.analyze_sentiment (Some Spec.three_model_classifier) (utf8 "hello")
    = Returns a /\
    (PhoBERTService.is_spam r = PhoBERTService.sr_is_spam s /\
     PhoBERTService.spam_score r = PhoBERTService.sr_spam_score s /\
     PhoBERTService.sentiment r = PhoBERTService.se_sentiment a /\
     PhoBERTService.sentiment_score r = PhoBERTService.se_score a) /\
    PhoBERTService.sr_is_spam s = true /\
    PhoBERTService.sr_spam_score s = 0.9%float /\
    PhoBERTService.se_sentiment a = utf8 "positive" /\
    PhoBERTService.se_score a = 0.8%float.
Proof.
  destruct (app_endpoints_agree str (Some Spec.three_model_classifier)
              Spec.three_model_classifier
              {| App.subject := None; App.body := None;
                 App.text := Some (utf8 "hello") |}
              (utf8 "hello") eq_refl eq_refl eq_refl)
    as (r & s & a & E1 & E2 & E3 & H).
  - vm_compute. discriminate.
  - exists r, s, a.
    split; [exact E1|]. split; [exact E2|]. split; [exact E3|]. split; [exact H|].
    vm_compute in E2. injection E2 as <-.
    vm_compute in E3. injection E3 as <-.
    repeat split.
Defined.

(** A request whose three fields are null is classified, as "None None". *)
Example null_request_is_classified :
  App.classify_email (Some Spec.six_class_classifier)
    {| App.subject := None; App.body := None; App.text := None |}
  = Returns (PhoBERTService.classify Spec.six_class_classifier (utf8 "None None")).
Proof. vm_compute. reflexivity. Qed.

(** [/sentiment] analyses a text of one space, which [/classify] rejects. *)
Example sentiment_of_white_space :
  exists resp,
    EmailServer.analyze_sentiment ascii_lower_at None
      (fun _ _ => inr []) (fun x => x) (utf8 " ") = Returns resp /\
    EmailServer.resp_sentiment resp = utf8 "neutral" /\
    EmailServer.resp_scores resp
    = [(utf8 "positive", 0.33%float); (utf8 "neutral", 0.6%float);
       (utf8 "negative", 0.33%float)].
Proof. eexists. split; [vm_compute; reflexivity | split; reflexivity]. Qed.

Lemma spam_confidence_monotone_witness :
  exists r1 r2,
    classify ascii_lower_at (utf8 "winner of a lottery") (utf8 "vi") = Returns r1 /\
    classify ascii_lower_at (utf8 "winner of a lottery prize") (utf8 "vi")
      = Returns r2 /\
    is_spam r2 = true /\
    (spam_confidence r1 <=? spam_confidence r2)%float = true.
Proof.
  destruct (spam_confidence_monotone ascii_lower_at
              (utf8 "winner of a lottery") (utf8 "vi")
              (utf8 "winner of a lottery prize") (utf8 "vi"))
    as (r1 & r2 & E1 & E2 & H & _).
  exists r1, r2. split; [exact E1|]. split; [exact E2|].
  apply H.
  - vm_compute in E1. injection E1 as <-. reflexivity.
  - vm_compute. discriminate.
Defined.

Lemma sentiment_endpoint_fallback_witness :
  exists r resp,
    classify ascii_lower_at (utf8 " ") (utf8 "vi") = Returns r /\
    EmailServer.analyze_sentiment ascii_lower_at None
      (fun _ _ => inr []) (fun x => x) (utf8 " ") = Returns resp /\
    EmailServer.resp_sentiment resp = sentiment r /\
    lookup (EmailServer.resp_scores resp) (sentiment r)
    = Some (sentiment_confidence r).
Proof.
  destruct (proj2 (sentiment_endpoint_fallback ascii_lower_at None
                     (fun _ _ => inr []) (fun x => x) (utf8 " ")))
    as (r & resp & E & A & S & _ & _ & L & _).
  - intros c H. discriminate H.
  - vm_compute. discriminate.
  - exists r, resp. auto.
Defined.

Lemma constructor_loads_consistently_witness :
  exists c,
    Loader.__init__ true (fun _ => false)
      (fun _ => Returns (fun text : str => Returns text))
      (fun _ => Raises (Exception [])) (fun _ => Returns tt) (utf8 "./models")
    = Returns c /\
    PhoBERTService.is_loaded c = false.
Proof.
  destruct (proj2 (constructor_loads_consistently str true (fun _ => false)
                     (fun _ => Returns (fun text : str => Returns text))
                     (fun _ => Raises (Exception [])) (fun _ => Returns tt)
                     (utf8 "./models")) eq_refl)
    as (c & E & _ & _ & _ & _ & H).
  exists c. split; [exact E|]. apply H; reflexivity.
Defined.

(** With only the directory of the spam model, which loads, the classifier
    handed out is a real one holding the spam model alone. *)
Lemma get_classifier_is_loaded_witness :
  exists real,
    Loader.get_classifier true
      (fun path => str_eqb path (utf8 "./models/spam_model"))
      (fun _ => Returns (fun text : str => Returns text))
      (fun _ => Returns (fun _ => Returns (1%Z, 0.9%float)))
      (fun _ => Returns tt) (utf8 "./models")
    = Returns (Loader.Real real) /\
    PhoBERTService.is_loaded real = true /\
    PhoBERTService.spam_model real <> None /\
    PhoBERTService.sentiment_model real = None /\
    PhoBERTService.category_model real = None.
Proof.
  destruct (get_classifier_is_loaded str true
              (fun path => str_eqb path (utf8 "./models/spam_model"))
              (fun _ => Returns (fun text : str => Returns text))
              (fun _ => Returns (fun _ => Returns (1%Z, 0.9%float)))
              (fun _ => Returns tt) (utf8 "./models"))
    as (c & E & _ & _ & Hreal).
  destruct Hreal as (real & -> & L & _ & H1 & H2 & H3).
  - reflexivity.
  - eexists. vm_compute. reflexivity.
  - right. do 2 eexists. split; reflexivity.
  - left. vm_compute. reflexivity.
  - left. vm_compute. reflexivity.
  - left. vm_compute. reflexivity.
  - exists real. split; [exact E|]. split; [exact L|]. split.
    + apply H1. vm_compute. reflexivity.
    + split.
      * destruct (PhoBERTService.sentiment_model real) as [m|]; [|reflexivity].
        assert (F : false = true); [|discriminate F].
        apply H2. discriminate.
      * destruct (PhoBERTService.category_model real) as [m|]; [|reflexivity].
        assert (F : false = true); [|discriminate F].
        apply H3. discriminate.
Defined.

Lemma app_classify_answers_witness :
  App.classify_email (Some Spec.six_class_classifier)
    {| App.subject := Some (utf8 " "); App.body := Some []; App.text := None |}
  = Raises App.no_text.
Proof.
  apply (proj1 (proj2 (app_classify_answers str (Some Spec.six_class_classifier)
                         {| App.subject := Some (utf8 " "); App.body := Some [];
                            App.text := None |})
                      Spec.six_class_classifier eq_refl eq_refl)).
  split; [now left|].
  exists (utf8 " "), []. repeat split.
Defined.

End MoreInstances.
